(** * The source crawler of the sourcing agent ([src/utils/scraper.py])

    A shallow embedding of [CannabisSourceScraper] and the properties its
    specification states about it.

    Conventions of the embedding.
    - A Python [str] is a [string]; each [ascii] stands for one code point
      in the range U+0000..U+00FF, so [len], slicing, [lower], [strip] and
      the regular expressions work on code points as in Python; [Wide]
      repeats the certification heuristic on text that also holds a code
      point beyond that range.
    - A Python [dict] built by the scraper is a [gmap string _]; the
      catalog's [sources_by_state] mapping, whose iteration order matters,
      is an association list in file order.
    - A computation that may raise an [Exception] returns an [outcome].
    - The libraries the scraper calls (the [re] engine on the patterns that
      occur in the source, BeautifulSoup's tree navigation, the asyncio
      semaphore) are modelled by their documented behaviour. *)

From Stdlib Require Import ZArith String Ascii List Lia QArith.
From stdpp Require Import base option list gmap strings pretty.

Set Warnings "-register-all".
Open Scope string_scope.
Open Scope list_scope.

(** ** Python text primitives *)

Module Py.

Definition code (c : ascii) : N := N_of_ascii c.

Definition between (lo hi : N) (c : ascii) : bool :=
  ((lo <=? code c) && (code c <=? hi))%N.

(** [str.isspace] on one code point below U+0100. *)
Definition isspace (c : ascii) : bool :=
  between 9 13 c || between 28 32 c
  || (code c =? 133)%N || (code c =? 160)%N.

Definition isupper (c : ascii) : bool :=
  between 65 90 c || (between 192 222 c && negb (code c =? 215)%N).

Definition lower_char (c : ascii) : ascii :=
  if isupper c then ascii_of_N (code c + 32) else c.

(** [s.lower()] *)
Fixpoint lower (s : string) : string :=
  match s with
  | EmptyString => EmptyString
  | String c s' => String (lower_char c) (lower s')
  end.

Definition len (s : string) : Z := Z.of_nat (String.length s).

Fixpoint drop (n : nat) (s : string) : string :=
  match n, s with
  | O, _ => s
  | S _, EmptyString => EmptyString
  | S n', String _ s' => drop n' s'
  end.

Fixpoint lstrip (s : string) : string :=
  match s with
  | EmptyString => EmptyString
  | String c s' => if isspace c then lstrip s' else s
  end.

Fixpoint rstrip (s : string) : string :=
  match s with
  | EmptyString => EmptyString
  | String c s' =>
      match rstrip s' with
      | EmptyString => if isspace c then EmptyString else String c EmptyString
      | r => String c r
      end
  end.

(** [s.strip()] *)
Definition strip (s : string) : string := rstrip (lstrip s).

(** [s.startswith(p)] *)
Definition startswith (p s : string) : bool := String.prefix p s.

Fixpoint find_nat (p s : string) : option nat :=
  if String.prefix p s then Some O
  else match s with
       | EmptyString => None
       | String _ s' => option_map S (find_nat p s')
       end.

(** [s.find(p)]: the first index of [p] in [s], or [-1]. *)
Definition find (p s : string) : Z :=
  match find_nat p s with
  | Some i => Z.of_nat i
  | None => (-1)%Z
  end.

(** [p in s] *)
Definition contains (p s : string) : bool :=
  match find_nat p s with Some _ => true | None => false end.

Definition clamp (n i : Z) : Z :=
  if (i <? 0)%Z then Z.max 0 (i + n) else Z.min i n.

(** [s[start:stop]] *)
Definition slice (s : string) (start stop : Z) : string :=
  let a := clamp (len s) start in
  let b := clamp (len s) stop in
  substring (Z.to_nat a) (Z.to_nat (b - a)) s.

(** [s[:stop]] *)
Definition slice_to (s : string) (stop : Z) : string := slice s 0 stop.

Fixpoint replace_go (p r : string) (skip : nat) (s : string) : string :=
  match s with
  | EmptyString => EmptyString
  | String c s' =>
      match skip with
      | S k => replace_go p r k s'
      | O =>
          if String.prefix p s
          then r +:+ replace_go p r (String.length p - 1) s'
          else String c (replace_go p r O s')
      end
  end.

(** [s.replace(p, r)] for a non-empty [p]. *)
Definition replace (p r s : string) : string := replace_go p r O s.

(** Truthiness of an optional string ([None] and [''] are falsy). *)
Definition truthy (o : option string) : bool :=
  match o with
  | Some (String _ _) => true
  | _ => false
  end.

(** [any(k in s for k in ks)] *)
Definition any_in (ks : list string) (s : string) : bool :=
  existsb (fun k => contains k s) ks.

End Py.

(** ** The regular expressions of the scraper

    Every pattern in the source is a sequence of greedy bounded repetitions
    of a one-character class and of non-capturing alternations of literals,
    wrapped in a single group.  [matches] is the backtracking matcher of
    [re] on that fragment and [findall] is [re.findall]. *)

Module Re.

Inductive atom : Type :=
| Rep (cls : ascii -> bool) (lo : nat) (hi : option nat)
| Alt (alts : list string).

Definition regex : Type := list atom.

(** How many leading characters of [s] are in [cls], at most [cap]. *)
Fixpoint span (cls : ascii -> bool) (cap : option nat) (s : string) : nat :=
  match cap, s with
  | Some O, _ => O
  | _, EmptyString => O
  | _, String c s' =>
      if cls c then S (span cls (option_map pred cap) s') else O
  end.

(** Length of the match of [r] at the start of [s], if any, found in
    backtracking order: longest repetition first, alternatives left to
    right. *)
Fixpoint matches (r : regex) (s : string) : option nat :=
  match r with
  | [] => Some O
  | Rep cls lo hi :: r' =>
      (fix try (n : nat) : option nat :=
         match
           (if (lo <=? n)%nat
            then option_map (Nat.add n) (matches r' (Py.drop n s))
            else None)
         with
         | Some m => Some m
         | None => match n with
                   | O => None
                   | S n' => try n'
                   end
         end) (span cls hi s)
  | Alt alts :: r' =>
      (fix first (l : list string) : option nat :=
         match l with
         | [] => None
         | a :: l' =>
             match
               (if String.prefix a s
                then option_map (Nat.add (String.length a))
                       (matches r' (Py.drop (String.length a) s))
                else None)
             with
             | Some m => Some m
             | None => first l'
             end
         end) alts
  end.

Fixpoint findall_from (fuel : nat) (r : regex) (s : string) : list string :=
  match fuel with
  | O => []
  | S fuel' =>
      match matches r s with
      | Some (S m) =>
          substring 0 (S m) s :: findall_from fuel' r (Py.drop (S m) s)
      | Some O =>
          EmptyString ::
            match s with
            | EmptyString => []
            | String _ s' => findall_from fuel' r s'
            end
      | None =>
          match s with
          | EmptyString => []
          | String _ s' => findall_from fuel' r s'
          end
      end
  end.

(** [re.findall(r, s)] *)
Definition findall (r : regex) (s : string) : list string :=
  findall_from (S (String.length s)) r s.

(** [re.compile('a|b|c').search(s)] for literals [a], [b], [c]. *)
Definition search_any (lits : list string) (s : string) : bool :=
  Py.any_in lits s.

(** Character classes. *)
Definition digit : ascii -> bool := Py.between 48 57.
Definition upper_az : ascii -> bool := Py.between 65 90.
Definition lower_az : ascii -> bool := Py.between 97 122.
Definition alpha (c : ascii) : bool := upper_az c || lower_az c.
Definition chr (x : ascii) (c : ascii) : bool := Ascii.eqb x c.
Definition one_of (xs : string) (c : ascii) : bool :=
  existsb (fun x => Ascii.eqb x c) (list_ascii_of_string xs).

(** Quantifiers. *)
Definition opt (cls : ascii -> bool) : atom := Rep cls 0 (Some 1).
Definition exactly (n : nat) (cls : ascii -> bool) : atom := Rep cls n (Some n).
Definition plus (cls : ascii -> bool) : atom := Rep cls 1 None.
Definition star (cls : ascii -> bool) : atom := Rep cls 0 None.
Definition at_least (n : nat) (cls : ascii -> bool) : atom := Rep cls n None.
Definition lit (x : ascii) : atom := Rep (chr x) 1 (Some 1).

End Re.

(** ** The parsed document (BeautifulSoup's tree) *)

Module Soup.

(** A tag with its attributes and contents, or a string of page text.
    Tag and attribute names are lower-case, as the parser delivers them;
    an attribute maps to its value as written in the page. *)
Inductive node : Type :=
| Text (s : string)
| Element (name : string) (attrs : gmap string string) (children : list node).

(** [tag.descendants]: every node below [n], in document order. *)
Fixpoint descendants (n : node) : list node :=
  match n with
  | Text _ => []
  | Element _ _ cs => flat_map (fun c => c :: descendants c) cs
  end.

(** [tag.get_text()] *)
Fixpoint get_text (n : node) : string :=
  match n with
  | Text s => s
  | Element _ _ cs => String.concat "" (map get_text cs)
  end.

(** [tag.get(key)] *)
Definition get (key : string) (n : node) : option string :=
  match n with
  | Text _ => None
  | Element _ attrs _ => attrs !! key
  end.

Definition is_tag (names : list string) (n : node) : bool :=
  match n with
  | Text _ => false
  | Element nm _ _ => existsb (String.eqb nm) names
  end.

(** [attrs={key: value}]: the attribute is present with that value. *)
Definition attr_is (key value : string) (n : node) : bool :=
  match get key n with
  | Some v => String.eqb v value
  | None => false
  end.

(** [key=re.compile('a|b|c')]: the attribute is present and the pattern
    is found in it.  The literals contain no white space, so searching
    the written value and searching each of its white-space separated
    tokens agree. *)
Definition attr_search (key : string) (lits : list string) (n : node) : bool :=
  match get key n with
  | Some v => Re.search_any lits v
  | None => false
  end.

(** [soup.find_all(names, ...)] with a further filter on the tag. *)
Definition find_all (names : list string) (p : node -> bool) (soup : node)
  : list node :=
  List.filter (fun n => is_tag names n && p n) (descendants soup).

(** [soup.find(names, ...)]: the first result of [find_all], or [None]. *)
Definition find (names : list string) (p : node -> bool) (soup : node)
  : option node :=
  List.find (fun n => is_tag names n && p n) (descendants soup).

Definition any_tag (_ : node) : bool := true.

End Soup.

(** ** Values, descriptors and the catalog *)

(** The result of a Python computation: a value, or an [Exception] with
    its message [str(e)]. *)
Inductive outcome (A : Type) : Type :=
| Return (a : A)
| Raise (msg : string).

Arguments Return {A} a.
Arguments Raise {A} msg.

Definition bind {A B : Type} (m : outcome A) (k : A -> outcome B) : outcome B :=
  match m with
  | Return a => k a
  | Raise msg => Raise msg
  end.

(** A source descriptor of the catalog: a JSON object with a [url] and
    optional seed values.  A field is [None] when its key is absent (or
    null). *)
Record descriptor : Type := Descriptor {
  url : option string;
  name : option string;
  products : option (list string);
  services : option (list string);
  location : option string
}.

(** [sources_by_state[state]] *)
Module State.
Record t : Type := Make {
  materials : option (list descriptor);
  equipment : option (list descriptor);
  dispensaries : option (list descriptor);
  manufacturers : option (list descriptor);
  legal_status : option string
}.
End State.

(** [national_suppliers] *)
Module National.
Record t : Type := Make {
  materials : option (list descriptor);
  equipment : option (list descriptor);
  packaging : option (list descriptor);
  testing : option (list descriptor)
}.
End National.

(** The catalog document ([sources_data]). *)
Record catalog : Type := Catalog {
  preferred_sources : option (list descriptor);
  sources_by_state : option (list (string * State.t));
  national_suppliers : option National.t;
  consulting_services : option (list descriptor);
  last_updated : option string
}.

(** The empty dict [{}]. *)
Definition empty_catalog : catalog := Catalog None None None None None.

(** The values stored in a scrape record. *)
Inductive pyval : Type :=
| PyStr (s : string)
| PyInt (n : Z)
| PyList (l : list string)
| PyDict (d : gmap string string)
| PySource (src : descriptor).

(** A scrape record: the dict returned by [scrape_source], or the failure
    entry built by [scrape_all_sources]. *)
Abbreviation record := (gmap string pyval).

(** The report returned by [scrape_all_sources]. *)
Record run_report : Type := RunReport {
  total_sources : nat;
  successful_scrapes : nat;
  failed_scrapes : nat;
  results : list record;
  failures : list record;
  timestamp : string
}.

(** What one call of [scrape_source] observes of the outside world. *)
Record response : Type := Response {
  status : Z;                 (* response.status *)
  document : outcome Soup.node (* BeautifulSoup(await response.text(), 'html.parser') *)
}.

Record io : Type := IO {
  get_session : outcome unit;                (* await self._get_session() *)
  session_get : string -> outcome response;  (* session.get(url, allow_redirects=True) *)
  now : string                               (* datetime.now().isoformat() *)
}.

(** [list(set(xs))]: the elements of [xs] without repetition, in the
    iteration order of the interpreter's hash table. *)
Class SetOrder : Type := {
  list_of_set : list string -> list string;
  list_of_set_NoDup : forall xs, NoDup (list_of_set xs);
  list_of_set_elem : forall xs x, x ∈ list_of_set xs <-> x ∈ xs
}.

(** [if d.get(k): acc.extend(d[k])] *)
Definition extend_if {A : Type} (acc : list A) (o : option (list A)) : list A :=
  match o with
  | Some (x :: xs) => acc ++ x :: xs
  | _ => acc
  end.

(** ** The scraper *)

Section Scraper.

Context `{SetOrder}.

(** [_load_sources]: [open_file] is [open(self.sources_file, 'r')]
    followed by reading the file, [json_load] is [json.load]. *)
Definition _load_sources
    (open_file : string -> outcome string)
    (json_load : string -> outcome catalog)
    (sources_file : string) : catalog :=
  match bind (open_file sources_file) json_load with
  | Return data => data
  | Raise _ => empty_catalog
  end.

(** *** Extraction heuristics *)

Definition text_of (tag : Soup.node) : string := Py.strip (Soup.get_text tag).

Definition _extract_title (soup : Soup.node) : string :=
  match Soup.find ["title"] Soup.any_tag soup with
  | Some title_tag => text_of title_tag
  | None =>
      match Soup.find ["h1"] Soup.any_tag soup with
      | Some h1_tag => text_of h1_tag
      | None => ""
      end
  end.

(** [tag and tag.get('content')] *)
Definition content_of (tag : option Soup.node) : option string :=
  match tag with
  | Some t => if Py.truthy (Soup.get "content" t) then Soup.get "content" t else None
  | None => None
  end.

Definition _extract_description (soup : Soup.node) : string :=
  let meta_desc := Soup.find ["meta"] (Soup.attr_is "name" "description") soup in
  match content_of meta_desc with
  | Some content => Py.strip content
  | None =>
      let og_desc :=
        Soup.find ["meta"] (Soup.attr_is "property" "og:description") soup in
      match content_of og_desc with
      | Some content => Py.strip content
      | None =>
          match Soup.find ["p"] Soup.any_tag soup with
          | Some first_p =>
              let text := text_of first_p in
              if (50 <? Py.len text)%Z
              then if (200 <? Py.len text)%Z
                   then Py.slice_to text 200 +:+ "..."
                   else text
              else ""
          | None => ""
          end
      end
  end.

Definition product_keywords : list string :=
  ["product"; "products"; "catalog"; "shop"; "store"; "buy";
   "seeds"; "clones"; "nutrients"; "equipment"; "lighting";
   "packaging"; "containers"; "supplies"; "accessories"].

(** The headings [element.find(['h2', 'h3', 'h4'])] of the given
    elements, for those that have one. *)
Definition heading_texts (elements : list Soup.node) : list string :=
  flat_map
    (fun element =>
       match Soup.find ["h2"; "h3"; "h4"] Soup.any_tag element with
       | Some title => [text_of title]
       | None => []
       end)
    elements.

Definition _extract_products (soup : Soup.node) (source : descriptor)
  : list string :=
  let nav_items :=
    Soup.find_all ["a"; "li"]
      (Soup.attr_search "class" ["nav"; "menu"; "product"]) soup in
  let products1 :=
    flat_map
      (fun item =>
         let text := Py.lower (text_of item) in
         if Py.any_in product_keywords text then [text_of item] else [])
      nav_items in
  let product_elements :=
    Soup.find_all ["div"; "section"]
      (Soup.attr_search "class" ["product"; "item"; "card"]) soup in
  let products2 := products1 ++ heading_texts (firstn 10 product_elements) in
  let products3 := extend_if products2 (products source) in
  list_of_set products3.

Definition sep (c : ascii) : bool := Re.one_of "-." c || Py.isspace c.
Definition letters_spaces (c : ascii) : bool := Re.alpha c || Py.isspace c.
Definition street_suffix : Re.atom :=
  Re.Alt ["Street"; "St"; "Avenue"; "Ave"; "Road"; "Rd"; "Boulevard"; "Blvd";
          "Drive"; "Dr"; "Lane"; "Ln"; "Way"; "Place"; "Pl"; "Court"; "Ct"].

Definition phone_pattern : Re.regex :=
  [Re.opt (Re.chr "+"); Re.opt (Re.chr "1"); Re.opt sep; Re.opt (Re.chr "(");
   Re.exactly 3 Re.digit; Re.opt (Re.chr ")"); Re.opt sep;
   Re.exactly 3 Re.digit; Re.opt sep; Re.exactly 4 Re.digit].

Definition email_pattern : Re.regex :=
  [Re.plus (fun c => Re.alpha c || Re.digit c || Re.one_of "._%+-" c);
   Re.lit "@";
   Re.plus (fun c => Re.alpha c || Re.digit c || Re.one_of ".-" c);
   Re.lit ".";
   Re.at_least 2 Re.alpha].

Definition address_pattern : Re.regex :=
  [Re.plus Re.digit; Re.plus Py.isspace; Re.plus letters_spaces; street_suffix].

Definition contact_patterns : list (string * Re.regex) :=
  [("phone", phone_pattern); ("email", email_pattern);
   ("address", address_pattern)].

Definition _extract_contact_info (soup : Soup.node) : gmap string string :=
  let page_text := Soup.get_text soup in
  let contact_info1 :=
    fold_left
      (fun (contact_info : gmap string string) '(info_type, pattern) =>
         match Re.findall pattern page_text with
         | m :: _ => <[info_type := m]> contact_info
         | [] => contact_info
         end)
      contact_patterns ∅ in
  let contact_links :=
    Soup.find_all ["a"] (Soup.attr_search "href" ["mailto:"; "tel:"]) soup in
  fold_left
    (fun (contact_info : gmap string string) link =>
       let href := default "" (Soup.get "href" link) in
       if Py.startswith "mailto:" href
       then <["email" := Py.replace "mailto:" "" href]> contact_info
       else if Py.startswith "tel:" href
            then <["phone" := Py.replace "tel:" "" href]> contact_info
            else contact_info)
    contact_links contact_info1.

Definition address_patterns : list Re.regex :=
  [ [Re.plus Re.digit; Re.plus Py.isspace; Re.plus letters_spaces;
     street_suffix; Re.star (fun c => negb (Re.chr "," c)); Re.lit ",";
     Re.star Py.isspace; Re.plus letters_spaces; Re.lit ",";
     Re.star Py.isspace; Re.exactly 2 Re.upper_az; Re.star Py.isspace;
     Re.exactly 5 Re.digit];
    [Re.plus letters_spaces; Re.lit ","; Re.star Py.isspace;
     Re.exactly 2 Re.upper_az];
    [Re.plus letters_spaces; Re.lit ","; Re.star Py.isspace;
     Re.plus letters_spaces] ].

Fixpoint first_match (patterns : list Re.regex) (page_text : string) : string :=
  match patterns with
  | [] => ""
  | pattern :: rest =>
      match Re.findall pattern page_text with
      | m :: _ => Py.strip m
      | [] => first_match rest page_text
      end
  end.

Definition _extract_location (soup : Soup.node) (source : descriptor) : string :=
  if Py.truthy (location source)
  then default "" (location source)
  else first_match address_patterns (Soup.get_text soup).

Definition cert_keywords : list string :=
  ["certified"; "certification"; "licensed"; "license"; "approved";
   "omri"; "organic"; "usda"; "fda"; "iso"; "gmp"; "haccp";
   "kosher"; "halal"; "vegan"; "gluten-free"].

(** The body of the loop of [_extract_certifications] for one keyword
    that occurs in the page text. *)
Definition cert_context (page_text keyword : string) : string :=
  let index := Py.find keyword page_text in
  let start := Z.max 0 (index - 50) in
  let end_ := Z.min (Py.len page_text) (index + 50) in
  Py.strip (Py.slice page_text start end_).

Definition cert_contexts (page_text : string) : list string :=
  flat_map
    (fun keyword =>
       if Py.contains keyword page_text
       then [cert_context page_text keyword]
       else [])
    cert_keywords.

Definition _extract_certifications (soup : Soup.node) : list string :=
  let page_text := Py.lower (Soup.get_text soup) in
  list_of_set (cert_contexts page_text).

Definition _extract_services (soup : Soup.node) (source : descriptor)
  : list string :=
  let services1 := extend_if [] (services source) in
  let service_elements :=
    Soup.find_all ["div"; "section"]
      (Soup.attr_search "class" ["service"; "consulting"; "support"]) soup in
  list_of_set (services1 ++ heading_texts service_elements).

(** *** One source *)

(** A dict literal. *)
Definition dict (items : list (string * pyval)) : record := list_to_map items.

(** The record built by the [except Exception as e] handler. *)
Definition error_record (url e timestamp : string) : record :=
  dict [("url", PyStr url); ("error", PyStr e);
        ("status", PyStr "error"); ("timestamp", PyStr timestamp)].

Definition add_scheme (url : string) : string :=
  if Py.startswith "http://" url || Py.startswith "https://" url
  then url
  else "https://" +:+ url.

Definition scraped_data (w : io) (url : string) (soup : Soup.node)
    (source : descriptor) : record :=
  dict [("url", PyStr url);
        ("timestamp", PyStr (now w));
        ("status", PyStr "success");
        ("title", PyStr (_extract_title soup));
        ("description", PyStr (_extract_description soup));
        ("products", PyList (_extract_products soup source));
        ("contact_info", PyDict (_extract_contact_info soup));
        ("location", PyStr (_extract_location soup source));
        ("certifications", PyList (_extract_certifications soup));
        ("services", PyList (_extract_services soup source))].

Definition scrape_source (w : io) (source : descriptor) : record :=
  match url source with
  | None | Some EmptyString => dict [("error", PyStr "No URL provided")]
  | Some url0 =>
      match get_session w with
      | Raise e => error_record url0 e (now w)
      | Return _ =>
          let url1 := add_scheme url0 in
          match session_get w url1 with
          | Raise e => error_record url1 e (now w)
          | Return response =>
              if negb (status response =? 200)%Z
              then dict [("url", PyStr url1);
                         ("error", PyStr ("HTTP " +:+ pretty (status response)));
                         ("status", PyInt (status response))]
              else
                match document response with
                | Raise e => error_record url1 e (now w)
                | Return soup => scraped_data w url1 soup source
                end
          end
      end
  end.

(** *** All sources *)

(** The list [all_sources] collected at the start of
    [scrape_all_sources]. *)
Definition all_sources (sources_data : catalog) : list descriptor :=
  let acc1 := extend_if [] (preferred_sources sources_data) in
  let acc2 :=
    match sources_by_state sources_data with
    | Some states =>
        fold_left
          (fun acc '(state, state_data) =>
             extend_if (extend_if acc (State.materials state_data))
                       (State.equipment state_data))
          states acc1
    | None => acc1
    end in
  match national_suppliers sources_data with
  | Some national =>
      extend_if (extend_if acc2 (National.materials national))
                (National.equipment national)
  | None => acc2
  end.

(** The task of one source; the semaphore and the pacing delay order the
    tasks in time (see [Schedule]) and do not change what a task returns. *)
Definition scrape_with_semaphore (w : io) (source : descriptor)
  : outcome record :=
  Return (scrape_source w source).

(** [asyncio.gather] over the tasks with [return_exceptions=True]: the
    results in the order of the tasks; task [i] observes [world i]. *)
Definition gather (world : nat -> io) (sources : list descriptor)
  : list (outcome record) :=
  imap (fun i source => scrape_with_semaphore (world i) source) sources.

(** [result.get('status') == 'success'] *)
Definition is_success (result : record) : bool :=
  match result !! "status" with
  | Some (PyStr s) => String.eqb s "success"
  | _ => false
  end.

(** The loop [for i, result in enumerate(results)], from index [i] on. *)
Fixpoint process_results (sources : list descriptor) (i : nat)
    (results : list (outcome record))
    (successful_scrapes failed_scrapes : list record)
  : outcome (list record * list record) :=
  match results with
  | [] => Return (successful_scrapes, failed_scrapes)
  | Raise e :: rest =>
      match sources !! i with
      | Some source =>
          process_results sources (S i) rest successful_scrapes
            (failed_scrapes ++
               [dict [("source", PySource source); ("error", PyStr e)]])
      | None => Raise "list index out of range"
      end
  | Return result :: rest =>
      if is_success result
      then process_results sources (S i) rest
             (successful_scrapes ++ [result]) failed_scrapes
      else process_results sources (S i) rest
             successful_scrapes (failed_scrapes ++ [result])
  end.

(** The report that [scrape_all_sources] builds once [asyncio.gather]
    has the result of every task.  The tasks take their slots from
    [asyncio.Semaphore(max_concurrent)]: with at least one slot, or with
    no task at all, the gather completes; with no slot and at least one
    task every task waits for good and the coroutine never returns (see
    [Schedule]).  [max_concurrent] ranges over the values the semaphore
    accepts; for a negative one its constructor raises [ValueError]. *)
Definition scrape_all_sources (world : nat -> io) (report_time : string)
    (sources_data : catalog) (max_concurrent : nat) : outcome run_report :=
  let sources := all_sources sources_data in
  let results := gather world sources in
  match process_results sources 0 results [] [] with
  | Return (successful, failed) =>
      Return (RunReport (length sources) (length successful) (length failed)
                        successful failed report_time)
  | Raise e => Raise e
  end.

End Scraper.

(** ** The schedule of the tasks

    [scrape_with_semaphore] runs under [asyncio.Semaphore(max_concurrent)]:
    a task waits for a slot, fetches while holding it, sleeps and only then
    gives the slot back.  The event loop interleaves the tasks between
    their suspension points; [step] is one such move, time being the
    loop's clock in seconds. *)

Module Schedule.

Inductive phase : Type :=
| Waiting                               (* before [async with semaphore] *)
| Fetching                              (* in [await self.scrape_source(source)] *)
| Pacing (fetched : Q)                  (* in [await asyncio.sleep(1)] *)
| Finished (fetched released : Q).      (* slot released, result returned *)

Record state : Type := State {
  value : nat;          (* free slots of the semaphore *)
  tasks : list phase;
  time : Q
}.

(** The argument of [asyncio.sleep]. *)
Definition pacing_delay : Q := 1.

Definition init (max_concurrent : nat) (n : nat) (t0 : Q) : state :=
  State max_concurrent (replicate n Waiting) t0.

Inductive step : state -> state -> Prop :=
| step_tick v ts t t' :
    (t <= t')%Q ->
    step (State v ts t) (State v ts t')
| step_acquire v ts t i :
    ts !! i = Some Waiting ->
    step (State (S v) ts t) (State v (<[i := Fetching]> ts) t)
| step_fetched v ts t i :
    ts !! i = Some Fetching ->
    step (State v ts t) (State v (<[i := Pacing t]> ts) t)
| step_release v ts t i fetched :
    ts !! i = Some (Pacing fetched) ->
    (fetched + pacing_delay <= t)%Q ->
    step (State v ts t) (State (S v) (<[i := Finished fetched t]> ts) t).

Inductive reachable (s0 : state) : state -> Prop :=
| reach_init : reachable s0 s0
| reach_step s s' : reachable s0 s -> step s s' -> reachable s0 s'.

Definition in_flight (p : phase) : bool :=
  match p with Fetching => true | _ => false end.

Definition holds_slot (p : phase) : bool :=
  match p with Fetching | Pacing _ => true | _ => false end.

Definition count (f : phase -> bool) (ts : list phase) : nat :=
  length (List.filter f ts).

(** A finished task released its slot no earlier than the pacing delay
    after its fetch ended. *)
Definition paced (p : phase) : Prop :=
  match p with
  | Finished fetched released => (fetched + pacing_delay <= released)%Q
  | _ => True
  end.

Definition invariant (max_concurrent : nat) (s : state) : Prop :=
  value s + count holds_slot (tasks s) = max_concurrent
  /\ Forall paced (tasks s).

End Schedule.

(** ** Vocabulary of the specification *)

(** An iteration order for sets: first occurrences, last one first. *)
Definition insertion_order : SetOrder :=
  {| list_of_set := remove_dups;
     list_of_set_NoDup := NoDup_remove_dups;
     list_of_set_elem := fun xs x => elem_of_remove_dups xs x |}.

(** Another iteration order for sets, as another hash seed gives: the
    reverse of [insertion_order]. *)
Definition reversed_order : SetOrder.
Proof.
  refine {| list_of_set := fun xs => reverse (remove_dups xs) |}.
  - intros xs. rewrite reverse_Permutation. apply NoDup_remove_dups.
  - intros xs x. rewrite elem_of_reverse. apply elem_of_remove_dups.
Defined.

Definition or_empty {A : Type} (o : option (list A)) : list A := default [] o.

(** The order of [flattenCatalog] as the specification words it:
    preferred sources; then, for the states in catalog order, the state's
    materials followed by its equipment; then the national materials; then
    the national equipment. *)
Definition flatten_catalog_spec (c : catalog) : list descriptor :=
  or_empty (preferred_sources c)
  ++ flat_map
       (fun '(_, state_data) =>
          or_empty (State.materials state_data)
          ++ or_empty (State.equipment state_data))
       (default [] (sources_by_state c))
  ++ match national_suppliers c with
     | Some national =>
         or_empty (National.materials national)
         ++ or_empty (National.equipment national)
     | None => []
     end.

(** The catalog with every section other than the five scraped ones
    removed. *)
Definition scraped_sections_only (c : catalog) : catalog :=
  Catalog (preferred_sources c)
    (option_map
       (map (fun '(state, sd) =>
          (state,
           State.Make (State.materials sd) (State.equipment sd) None None None)))
       (sources_by_state c))
    (option_map
       (fun n =>
          National.Make (National.materials n) (National.equipment n) None None)
       (national_suppliers c))
    None None.

(** Opening, reading or parsing the catalog file raises. *)
Definition load_fails (open_file : string -> outcome string)
    (json_load : string -> outcome catalog) (sources_file : string) : Prop :=
  (exists e, open_file sources_file = Raise e)
  \/ (exists content e,
        open_file sources_file = Return content /\ json_load content = Raise e).

(** Inside the [try] block of [scrape_source], for the descriptor's URL
    [url0], an exception with message [e] is raised: when the session is
    obtained, by the request, or while the body of a 200 response is read
    and parsed. *)
Definition fetch_raises (w : io) (url0 e : string) : Prop :=
  get_session w = Raise e
  \/ (exists session,
        get_session w = Return session
        /\ (session_get w (add_scheme url0) = Raise e
            \/ exists resp,
                 session_get w (add_scheme url0) = Return resp
                 /\ status resp = 200%Z /\ document resp = Raise e)).

Definition has_str (key : string) (r : record) : Prop :=
  exists s, r !! key = Some (PyStr s).

(** A record with the three fields of the data model. *)
Definition full_record (r : record) : Prop :=
  has_str "url" r /\ has_str "timestamp" r
  /\ (r !! "status" = Some (PyStr "success")
      \/ r !! "status" = Some (PyStr "error")).

Definition no_url_record : record := dict [("error", PyStr "No URL provided")].

Definition http_error_record (url1 : string) (code : Z) : record :=
  dict [("url", PyStr url1); ("error", PyStr ("HTTP " +:+ pretty code));
        ("status", PyInt code)].

(** The records of the tasks, in task order. *)
Definition task_records `{SetOrder} (world : nat -> io)
    (sources : list descriptor) : list record :=
  imap (fun i source => scrape_source (world i) source) sources.

(** [t] is the first node of the document, in document order, that
    satisfies [p]. *)
Definition first_in_document (p : Soup.node -> bool) (soup t : Soup.node)
  : Prop :=
  exists before after,
    Soup.descendants soup = before ++ t :: after
    /\ p t = true
    /\ Forall (fun x => p x = false) before.

Definition none_in_document (p : Soup.node -> bool) (soup : Soup.node) : Prop :=
  Forall (fun x => p x = false) (Soup.descendants soup).

Definition tag (nm : string) (n : Soup.node) : bool := Soup.is_tag [nm] n.

Definition meta (key value : string) (n : Soup.node) : bool :=
  Soup.is_tag ["meta"] n && Soup.attr_is key value n.

(** The first [meta] tag with [key=value] has the non-empty content [c]. *)
Definition meta_content (key value : string) (soup : Soup.node) (c : string)
  : Prop :=
  exists m, first_in_document (meta key value) soup m
            /\ Soup.get "content" m = Some c /\ c <> "".

(** There is no [meta] tag with [key=value], or the first one has no
    content. *)
Definition no_meta_content (key value : string) (soup : Soup.node) : Prop :=
  none_in_document (meta key value) soup
  \/ exists m, first_in_document (meta key value) soup m
               /\ Py.truthy (Soup.get "content" m) = false.

(** ** Sample inputs *)

(** The tree the parser builds for a page that consists of a [title] tag
    with the text [Acme Nutrients] and a [meta] tag with name
    [description] and content [We sell nutrients.] *)
Definition acme_title : Soup.node :=
  Soup.Element "title" ∅ [Soup.Text "Acme Nutrients"].

Definition acme_page : Soup.node :=
  Soup.Element "[document]" ∅
    [acme_title;
     Soup.Element "meta"
       (<["name" := "description"]> (<["content" := "We sell nutrients."]> ∅))
       []].

Definition grower_page : Soup.node :=
  Soup.Element "[document]" ∅
    [Soup.Element "p" ∅ [Soup.Text "USDA Organic growers since 1999"]].

Definition seed (url0 : option string) : descriptor :=
  Descriptor url0 None None None None.

(** A host that never answers: the request ends in the client's total
    timeout, an [asyncio.TimeoutError] whose message is empty. *)
Definition timeout_world : io :=
  IO (Return tt) (fun _ => Raise "") "2024-05-01T12:00:00".

Definition refusing_world : io :=
  IO (Return tt) (fun _ => Raise "Connection refused") "2024-05-01T12:00:00".

Definition not_found_world : io :=
  IO (Return tt) (fun _ => Return (Response 404 (Return acme_page)))
     "2024-05-01T12:00:00".

Definition missing_file (path : string) : outcome string :=
  Raise "No such file or directory".

Definition no_json (content : string) : outcome catalog :=
  Raise "Expecting value".

(** Two tasks under one slot, after the first one has fetched at time 0
    and released its slot at time 1. *)
Definition first_task_done : Schedule.state :=
  Schedule.State 1 [Schedule.Finished 0 1; Schedule.Waiting] 1.

(** * The rest of the scraper and its command line *)

(** ** The command line ([scrape_sources.py]) *)

Module Cli.

(** The summary line [Success rate: ...] divides the number of successful
    scrapes by [total_sources]; only whether the division raises is
    modelled. *)
Definition success_rate (report : run_report) : outcome unit :=
  if Nat.eqb (total_sources report) 0
  then Raise "division by zero"
  else Return tt.

(** The status returned by [scrape_sources(args)] when [args.dry_run] is
    false and the run is not interrupted: [0] at the end of the [try] block,
    [1] from the [except Exception] handler.  Printing, saving (which
    catches its own exceptions) and closing the session are taken to
    succeed. *)
Definition scrape_sources `{SetOrder} (world : nat -> io)
    (report_time : string) (sources_data : catalog) (max_concurrent : nat)
  : Z :=
  match
    bind (scrape_all_sources world report_time sources_data max_concurrent)
      success_rate
  with
  | Return _ => 0%Z
  | Raise _ => 1%Z
  end.

(** [if d.get(k): total_sources += len(d[k])] *)
Definition add_len {A : Type} (total : nat) (o : option (list A)) : nat :=
  match o with
  | Some (x :: xs) => total + length (x :: xs)
  | _ => total
  end.

(** The count printed as [Found ... sources to scrape]. *)
Definition total_sources (sources_data : catalog) : nat :=
  let total1 := add_len 0 (preferred_sources sources_data) in
  let total2 :=
    match sources_by_state sources_data with
    | Some states =>
        fold_left
          (fun total '(state, state_data) =>
             add_len (add_len total (State.materials state_data))
                     (State.equipment state_data))
          states total1
    | None => total1
    end in
  match national_suppliers sources_data with
  | Some national =>
      add_len (add_len total2 (National.materials national))
              (National.equipment national)
  | None => total2
  end.

End Cli.

(** ** The client session

    [self.session] of the scraper.  A client session is named by the
    number of sessions constructed before it; [created] counts the calls of
    [aiohttp.ClientSession(...)], [closed] lists the sessions on which
    [close()] was called, latest first. *)

Module Session.

Record t : Type := Make {
  session : option nat;
  created : nat;
  closed : list nat
}.

(** After [__init__]. *)
Definition init : t := Make None 0 [].

(** [_get_session]: the session it returns and the scraper afterwards. *)
Definition _get_session (self : t) : nat * t :=
  match session self with
  | None =>
      (created self,
       Make (Some (created self)) (S (created self)) (closed self))
  | Some s => (s, self)
  end.

(** [close_session] *)
Definition close_session (self : t) : t :=
  match session self with
  | Some s => Make None (created self) (s :: closed self)
  | None => self
  end.

Inductive call : Type := Get | Close.

Definition run_call (self : t) (c : call) : t :=
  match c with
  | Get => snd (_get_session self)
  | Close => close_session self
  end.

(** The scraper after a sequence of calls. *)
Definition run (calls : list call) : t := fold_left run_call calls init.

(** Every session constructed so far is the current one or was closed,
    and no session was closed twice. *)
Definition accounted (self : t) : Prop :=
  NoDup (closed self)
  /\ (forall s, s ∈ closed self -> s < created self)
  /\ match session self with
     | Some s => s < created self /\ (s ∉ closed self)
                 /\ created self = S (length (closed self))
     | None => created self = length (closed self)
     end.

End Session.

(** ** Further vocabulary *)

(** The fetch of [url0] ends with a 200 response whose body parses to
    [soup]. *)
Definition fetched_ok (w : io) (url0 : string) (soup : Soup.node) : Prop :=
  exists session resp,
    get_session w = Return session
    /\ session_get w (add_scheme url0) = Return resp
    /\ status resp = 200%Z
    /\ document resp = Return soup.

Definition has_scheme (u : string) : bool :=
  Py.startswith "http://" u || Py.startswith "https://" u.

(** The failure entry built for a task that ended in an exception. *)
Definition exception_entry (source : descriptor) (e : string) : record :=
  dict [("source", PySource source); ("error", PyStr e)].

(** The elements [_extract_products] and [_extract_services] look at. *)
Definition nav_items (soup : Soup.node) : list Soup.node :=
  Soup.find_all ["a"; "li"]
    (Soup.attr_search "class" ["nav"; "menu"; "product"]) soup.

Definition product_elements (soup : Soup.node) : list Soup.node :=
  Soup.find_all ["div"; "section"]
    (Soup.attr_search "class" ["product"; "item"; "card"]) soup.

(** No white space at either end. *)
Definition stripped (s : string) : Prop := Py.strip s = s.

Definition no_leading_space (s : string) : Prop :=
  match s with
  | EmptyString => True
  | String c _ => Py.isspace c = false
  end.

(** The links [_extract_contact_info] looks at. *)
Definition contact_links (soup : Soup.node) : list Soup.node :=
  Soup.find_all ["a"] (Soup.attr_search "href" ["mailto:"; "tel:"]) soup.

Definition href_of (link : Soup.node) : string :=
  default "" (Soup.get "href" link).

Definition is_mailto (link : Soup.node) : bool :=
  Py.startswith "mailto:" (href_of link).

Definition is_tel (link : Soup.node) : bool :=
  Py.startswith "tel:" (href_of link).

(** The first match of a pattern in the page text, if any. *)
Definition first_found (pattern : Re.regex) (soup : Soup.node)
  : option string :=
  head (Re.findall pattern (Soup.get_text soup)).

(** The body of the loop over the contact links. *)
Definition link_update (contact_info : gmap string string)
    (link : Soup.node) : gmap string string :=
  if is_mailto link
  then <["email" := Py.replace "mailto:" "" (href_of link)]> contact_info
  else if is_tel link
       then <["phone" := Py.replace "tel:" "" (href_of link)]> contact_info
       else contact_info.

(** The least and the greatest length of a match of a pattern. *)
Definition min_length (alts : list string) : nat :=
  match alts with
  | [] => 0
  | a :: l =>
      fold_right (fun x m => Nat.min (String.length x) m) (String.length a) l
  end.

Definition max_length (alts : list string) : nat :=
  fold_right (fun x m => Nat.max (String.length x) m) 0 alts.

Definition atom_min (a : Re.atom) : nat :=
  match a with
  | Re.Rep _ lo _ => lo
  | Re.Alt alts => min_length alts
  end.

Definition atom_max (a : Re.atom) : option nat :=
  match a with
  | Re.Rep _ _ hi => hi
  | Re.Alt alts => Some (max_length alts)
  end.

Definition min_len (r : Re.regex) : nat :=
  fold_right (fun a m => atom_min a + m) 0 r.

Fixpoint max_len (r : Re.regex) : option nat :=
  match r with
  | [] => Some 0
  | a :: r' =>
      match atom_max a, max_len r' with
      | Some x, Some y => Some (x + y)
      | _, _ => None
      end
  end.

(** The moves a task still has to make. *)
Definition todo (p : Schedule.phase) : nat :=
  match p with
  | Schedule.Waiting => 3
  | Schedule.Fetching => 2
  | Schedule.Pacing _ => 1
  | Schedule.Finished _ _ => 0
  end.

Fixpoint remaining (ts : list Schedule.phase) : nat :=
  match ts with
  | [] => 0
  | p :: ts' => todo p + remaining ts'
  end.

Definition is_finished (p : Schedule.phase) : bool :=
  match p with Schedule.Finished _ _ => true | _ => false end.

Definition is_waiting (p : Schedule.phase) : bool :=
  match p with Schedule.Waiting => true | _ => false end.

Definition is_pacing (p : Schedule.phase) : bool :=
  match p with Schedule.Pacing _ => true | _ => false end.

(** ** Text beyond U+00FF

    [_extract_certifications] once more, on text that may also hold
    U+1D400 (mathematical bold capital A): an upper-case code point that
    [str.lower()] leaves as it is, as every upper-case code point without
    a lower-case form.  On the code points below U+0100 everything is as
    in [Py]. *)

Module Wide.

Inductive code_point : Type :=
| Latin1 (c : ascii)     (* a code point below U+0100 *)
| BoldCapitalA.          (* U+1D400 *)

#[global] Instance code_point_eq_dec : EqDecision code_point.
Proof. solve_decision. Defined.

Definition text : Type := list code_point.

Definition eqb (x y : code_point) : bool :=
  match x, y with
  | Latin1 a, Latin1 b => Ascii.eqb a b
  | BoldCapitalA, BoldCapitalA => true
  | _, _ => false
  end.

(** [c.isspace()], [c.isupper()], [c.lower()] *)
Definition isspace (c : code_point) : bool :=
  match c with
  | Latin1 a => Py.isspace a
  | BoldCapitalA => false
  end.

Definition isupper (c : code_point) : bool :=
  match c with
  | Latin1 a => Py.isupper a
  | BoldCapitalA => true
  end.

Definition lower_char (c : code_point) : code_point :=
  match c with
  | Latin1 a => Latin1 (Py.lower_char a)
  | BoldCapitalA => BoldCapitalA
  end.

(** [s.lower()] *)
Definition lower (s : text) : text := map lower_char s.

Definition len (s : text) : Z := Z.of_nat (length s).

Fixpoint prefix (p s : text) : bool :=
  match p, s with
  | [], _ => true
  | _ :: _, [] => false
  | x :: p', y :: s' => eqb x y && prefix p' s'
  end.

Fixpoint find_nat (p s : text) : option nat :=
  if prefix p s then Some O
  else match s with
       | [] => None
       | _ :: s' => option_map S (find_nat p s')
       end.

(** [s.find(p)] *)
Definition find (p s : text) : Z :=
  match find_nat p s with
  | Some i => Z.of_nat i
  | None => (-1)%Z
  end.

(** [p in s] *)
Definition contains (p s : text) : bool :=
  match find_nat p s with Some _ => true | None => false end.

(** [s[start:stop]] *)
Definition slice (s : text) (start stop : Z) : text :=
  let a := Py.clamp (len s) start in
  let b := Py.clamp (len s) stop in
  firstn (Z.to_nat (b - a)) (skipn (Z.to_nat a) s).

Fixpoint lstrip (s : text) : text :=
  match s with
  | [] => []
  | c :: s' => if isspace c then lstrip s' else s
  end.

Fixpoint rstrip (s : text) : text :=
  match s with
  | [] => []
  | c :: s' =>
      match rstrip s' with
      | [] => if isspace c then [] else [c]
      | r => c :: r
      end
  end.

(** [s.strip()] *)
Definition strip (s : text) : text := rstrip (lstrip s).

(** A string of code points below U+0100, such as a literal of the
    source, as text. *)
Definition widen (s : string) : text := map Latin1 (list_ascii_of_string s).

(** The body of the loop of [_extract_certifications] for one keyword
    that occurs in the page text. *)
Definition cert_context (page_text keyword : text) : text :=
  let index := find keyword page_text in
  let start := Z.max 0 (index - 50) in
  let end_ := Z.min (len page_text) (index + 50) in
  strip (slice page_text start end_).

Definition cert_contexts (page_text : text) : list text :=
  flat_map
    (fun keyword =>
       if contains keyword page_text
       then [cert_context page_text keyword]
       else [])
    (map widen cert_keywords).

(** [_extract_certifications] on the text [soup.get_text()] of the page;
    [list_of_set] is [list(set(..))]. *)
Definition _extract_certifications (list_of_set : list text -> list text)
    (text_of_page : text) : list text :=
  let page_text := lower text_of_page in
  list_of_set (cert_contexts page_text).

End Wide.

(** [p] occurs in [s] at index [i]; it does so for the first time. *)
Definition occurs_at (p s : Wide.text) (i : nat) : Prop :=
  firstn (length p) (skipn i s) = p.

Definition first_occurrence (p s : Wide.text) (i : nat) : Prop :=
  occurs_at p s i /\ forall j, j < i -> ~ occurs_at p s j.

(** ** Further sample inputs *)

Definition sales_link : Soup.node :=
  Soup.Element "a" (<["href" := "mailto:sales@acme.example"]> ∅)
    [Soup.Text "Sales"].

Definition info_link : Soup.node :=
  Soup.Element "a" (<["href" := "mailto:info@acme.example"]> ∅)
    [Soup.Text "Info"].

(** A page with a phone number in its text and two mail links. *)
Definition contact_page : Soup.node :=
  Soup.Element "[document]" ∅
    [Soup.Element "p" ∅ [Soup.Text "Call (555) 123-4567 today"];
     sales_link; info_link].

Definition ok_world : io :=
  IO (Return tt) (fun _ => Return (Response 200 (Return acme_page)))
     "2024-05-01T12:00:00".

(** A catalog with two preferred sources, the second without URL. *)
Definition small_catalog : catalog :=
  Catalog (Some [seed (Some "supplier.example"); seed None])
    None None None None.

(** Two tasks without any slot, five seconds after the start. *)
Definition still_waiting : Schedule.state :=
  Schedule.State 0 [Schedule.Waiting; Schedule.Waiting] 5.

(** A page text with an upper-case character that has no lower-case
    form. *)
Definition bold_page : Wide.text :=
  Wide.BoldCapitalA :: Wide.widen " Certified".

(** A descriptor with two seed products. *)
Definition two_products : descriptor :=
  Descriptor (Some "supplier.example") None (Some ["seeds"; "clones"])
    None None.

(** * Properties *)

(** ** Searching the document *)

Section Find.

Lemma find_first {A : Type} (p : A -> bool) (before after : list A) (t : A) :
  p t = true -> Forall (fun x => p x = false) before ->
  List.find p (before ++ t :: after) = Some t.
Proof.
  intros Ht Hbefore. induction Hbefore as [|x before Hx _ IH]; simpl.
  - now rewrite Ht.
  - now rewrite Hx.
Qed.

Lemma find_none {A : Type} (p : A -> bool) (l : list A) :
  Forall (fun x => p x = false) l -> List.find p l = None.
Proof.
  intros Hl. induction Hl as [|x l Hx _ IH]; simpl; [reflexivity|].
  now rewrite Hx.
Qed.

Lemma soup_find_first (names : list string) (q : Soup.node -> bool)
    (soup t : Soup.node) :
  first_in_document (fun n => Soup.is_tag names n && q n) soup t ->
  Soup.find names q soup = Some t.
Proof.
  intros (before & after & Hd & Ht & Hb). unfold Soup.find.
  rewrite Hd. now apply find_first.
Qed.

Lemma soup_find_none (names : list string) (q : Soup.node -> bool)
    (soup : Soup.node) :
  none_in_document (fun n => Soup.is_tag names n && q n) soup ->
  Soup.find names q soup = None.
Proof. intros Hn. unfold Soup.find. now apply find_none. Qed.

Lemma find_tag_first (nm : string) (soup t : Soup.node) :
  first_in_document (tag nm) soup t ->
  Soup.find [nm] Soup.any_tag soup = Some t.
Proof.
  intros (before & after & Hd & Ht & Hb). apply soup_find_first.
  exists before, after. unfold tag, Soup.any_tag in *.
  repeat split; [assumption|now rewrite andb_true_r|].
  eapply Forall_impl; [exact Hb|].
  intros x Hx. simpl in Hx. now rewrite andb_true_r.
Qed.

Lemma find_tag_none (nm : string) (soup : Soup.node) :
  none_in_document (tag nm) soup -> Soup.find [nm] Soup.any_tag soup = None.
Proof.
  intros Hn. apply soup_find_none.
  unfold none_in_document, tag, Soup.any_tag in *.
  eapply Forall_impl; [exact Hn|].
  intros x Hx. simpl in Hx. now rewrite andb_true_r.
Qed.

Lemma content_of_meta (key value : string) (soup : Soup.node) (c : string) :
  meta_content key value soup c ->
  content_of (Soup.find ["meta"] (Soup.attr_is key value) soup) = Some c.
Proof.
  intros (m & Hm & Hc & Hne). rewrite (soup_find_first _ _ _ m Hm).
  unfold content_of. rewrite Hc. destruct c; [congruence|reflexivity].
Qed.

Lemma content_of_no_meta (key value : string) (soup : Soup.node) :
  no_meta_content key value soup ->
  content_of (Soup.find ["meta"] (Soup.attr_is key value) soup) = None.
Proof.
  intros [Hn|(m & Hm & Hc)].
  - now rewrite soup_find_none.
  - rewrite (soup_find_first _ _ _ m Hm). unfold content_of. now rewrite Hc.
Qed.

End Find.

(** ** The catalog *)

Section Flatten.

Lemma extend_if_or_empty {A : Type} (acc : list A) (o : option (list A)) :
  extend_if acc o = acc ++ or_empty o.
Proof. destruct o as [[|x xs]|]; simpl; auto using app_nil_r. Qed.

Lemma fold_states (states : list (string * State.t)) (acc : list descriptor) :
  fold_left
    (fun acc '(state, state_data) =>
       extend_if (extend_if acc (State.materials state_data))
                 (State.equipment state_data))
    states acc
  = acc ++ flat_map
             (fun '(_, state_data) =>
                or_empty (State.materials state_data)
                ++ or_empty (State.equipment state_data))
             states.
Proof.
  revert acc. induction states as [|[state sd] states IH]; intros acc; simpl.
  - now rewrite app_nil_r.
  - rewrite IH, !extend_if_or_empty, <- !app_assoc. reflexivity.
Qed.

Lemma all_sources_flatten (c : catalog) :
  all_sources c = flatten_catalog_spec c.
Proof.
  unfold all_sources, flatten_catalog_spec.
  rewrite extend_if_or_empty. simpl.
  destruct (sources_by_state c) as [states|]; simpl.
  - rewrite fold_states.
    destruct (national_suppliers c) as [n|].
    + rewrite !extend_if_or_empty, <- !app_assoc. reflexivity.
    + now rewrite app_nil_r.
  - destruct (national_suppliers c) as [n|].
    + rewrite !extend_if_or_empty, <- !app_assoc. reflexivity.
    + now rewrite app_nil_r.
Qed.

Lemma flatten_scraped_sections_only (c : catalog) :
  flatten_catalog_spec (scraped_sections_only c) = flatten_catalog_spec c.
Proof.
  unfold flatten_catalog_spec, scraped_sections_only. simpl.
  f_equal. f_equal.
  - destruct (sources_by_state c) as [states|]; simpl; [|reflexivity].
    induction states as [|[state sd] states IH]; simpl; [reflexivity|].
    now rewrite IH.
  - now destruct (national_suppliers c).
Qed.

(** C6: the list scraped by [scrape_all_sources] is the concatenation, in
    this order, of the preferred sources, of each state's materials
    followed by that state's equipment with the states in catalog order,
    of the national materials and of the national equipment; no other
    section of the catalog contributes to it. *)
Theorem flatten_order (c : catalog) :
  all_sources c = flatten_catalog_spec c
  /\ all_sources (scraped_sections_only c) = all_sources c.
Proof.
  split; [apply all_sources_flatten|].
  rewrite !all_sources_flatten. apply flatten_scraped_sections_only.
Qed.

End Flatten.

(** ** The scraper *)

Section Properties.

Context `{SetOrder}.

(** *** Loading the catalog *)

(** C7: when opening, reading or parsing the catalog file raises,
    [_load_sources] returns the empty catalog, and [scrape_all_sources]
    on it returns a report of zero sources. *)
Theorem load_failure_is_zero_sources
    (open_file : string -> outcome string)
    (json_load : string -> outcome catalog) (sources_file : string)
    (world : nat -> io) (report_time : string) (max_concurrent : nat) :
  load_fails open_file json_load sources_file ->
  _load_sources open_file json_load sources_file = empty_catalog
  /\ scrape_all_sources world report_time
       (_load_sources open_file json_load sources_file) max_concurrent
     = Return (RunReport 0 0 0 [] [] report_time).
Proof.
  intros Hfail.
  assert (_load_sources open_file json_load sources_file = empty_catalog)
    as ->.
  { unfold _load_sources.
    destruct Hfail as [[e ->]|(content & e & -> & He)]; simpl;
      [reflexivity|now rewrite He]. }
  split; reflexivity.
Qed.

(** *** Title and description *)

(** C8: the title is the text of the first [title] tag, else of the
    first [h1] tag, else empty; the description is the content of the
    meta description, else of the Open Graph description, else the text
    of the first paragraph when it is longer than 50 characters, cut to
    200 characters and an ellipsis when it is longer than 200, else
    empty (texts and contents with surrounding white space removed); and
    the page of the scenario gives the title [Acme Nutrients] and the
    description [We sell nutrients.] *)
Theorem title_and_description_rules :
  (forall soup t,
      first_in_document (tag "title") soup t ->
      _extract_title soup = Py.strip (Soup.get_text t))
  /\ (forall soup h,
         none_in_document (tag "title") soup ->
         first_in_document (tag "h1") soup h ->
         _extract_title soup = Py.strip (Soup.get_text h))
  /\ (forall soup,
         none_in_document (tag "title") soup ->
         none_in_document (tag "h1") soup ->
         _extract_title soup = "")
  /\ (forall soup c,
         meta_content "name" "description" soup c ->
         _extract_description soup = Py.strip c)
  /\ (forall soup c,
         no_meta_content "name" "description" soup ->
         meta_content "property" "og:description" soup c ->
         _extract_description soup = Py.strip c)
  /\ (forall soup p,
         no_meta_content "name" "description" soup ->
         no_meta_content "property" "og:description" soup ->
         first_in_document (tag "p") soup p ->
         let text := Py.strip (Soup.get_text p) in
         _extract_description soup =
           if (Py.len text <=? 50)%Z then ""
           else if (Py.len text <=? 200)%Z then text
                else Py.slice_to text 200 +:+ "...")
  /\ (forall soup,
         no_meta_content "name" "description" soup ->
         no_meta_content "property" "og:description" soup ->
         none_in_document (tag "p") soup ->
         _extract_description soup = "")
  /\ _extract_title acme_page = "Acme Nutrients"
  /\ _extract_description acme_page = "We sell nutrients.".
Proof.
  repeat apply conj.
  - intros soup t Ht. unfold _extract_title.
    now rewrite (find_tag_first _ _ _ Ht).
  - intros soup h Hn Hh. unfold _extract_title.
    now rewrite (find_tag_none _ _ Hn), (find_tag_first _ _ _ Hh).
  - intros soup Hn Hh. unfold _extract_title.
    now rewrite (find_tag_none _ _ Hn), (find_tag_none _ _ Hh).
  - intros soup c Hc. unfold _extract_description.
    now rewrite (content_of_meta _ _ _ _ Hc).
  - intros soup c Hn Hc. unfold _extract_description.
    now rewrite (content_of_no_meta _ _ _ Hn), (content_of_meta _ _ _ _ Hc).
  - intros soup p Hn Hog Hp text. unfold _extract_description.
    rewrite (content_of_no_meta _ _ _ Hn), (content_of_no_meta _ _ _ Hog).
    rewrite (find_tag_first _ _ _ Hp). unfold text_of. fold text.
    destruct (Z.ltb_spec 50 (Py.len text)), (Z.leb_spec (Py.len text) 50);
      try lia; [|reflexivity].
    destruct (Z.ltb_spec 200 (Py.len text)), (Z.leb_spec (Py.len text) 200);
      try lia; reflexivity.
  - intros soup Hn Hog Hp. unfold _extract_description.
    rewrite (content_of_no_meta _ _ _ Hn), (content_of_no_meta _ _ _ Hog).
    now rewrite (find_tag_none _ _ Hp).
  - reflexivity.
  - reflexivity.
Qed.

(** *** Certifications *)

Section WideText.

Import Wide.

Lemma wide_eqb_eq (x y : code_point) : eqb x y = true <-> x = y.
Proof.
  destruct x as [a|], y as [b|]; simpl; try (split; congruence).
  rewrite Ascii.eqb_eq. split; congruence.
Qed.

Lemma wide_prefix_firstn (p s : text) :
  prefix p s = true <-> firstn (length p) s = p.
Proof.
  revert s. induction p as [|x p IH]; intros [|y s]; simpl.
  - tauto.
  - tauto.
  - split; discriminate.
  - rewrite andb_true_iff, wide_eqb_eq, IH. split.
    + intros [-> ->]. reflexivity.
    + intros [= -> Hp]. auto.
Qed.

(** [find] returns the index of the first occurrence. *)
Lemma wide_find_nat_first (p s : text) (i : nat) :
  find_nat p s = Some i <-> first_occurrence p s i.
Proof.
  revert i. induction s as [|y s IH]; intros i; simpl.
  - destruct (prefix p []) eqn:Hp.
    + apply (proj1 (wide_prefix_firstn _ _)) in Hp. split.
      * intros [= <-]. split; [exact Hp|]. intros j Hj. lia.
      * intros [Hi Hfirst]. destruct i as [|i]; [reflexivity|].
        exfalso. apply (Hfirst 0); [lia|exact Hp].
    + split; [discriminate|]. intros [Hi _]. exfalso.
      unfold occurs_at in Hi. rewrite skipn_nil in Hi.
      apply (proj2 (wide_prefix_firstn p [])) in Hi.
      rewrite Hp in Hi. discriminate.
  - destruct (prefix p (y :: s)) eqn:Hp.
    + apply (proj1 (wide_prefix_firstn _ _)) in Hp. split.
      * intros [= <-]. split; [exact Hp|]. intros j Hj. lia.
      * intros [Hi Hfirst]. destruct i as [|i]; [reflexivity|].
        exfalso. apply (Hfirst 0); [lia|exact Hp].
    + assert (~ occurs_at p (y :: s) 0) as Hno.
      { intros H0. apply (proj2 (wide_prefix_firstn p (y :: s))) in H0.
        rewrite Hp in H0. discriminate. }
      destruct (find_nat p s) as [k|] eqn:Hk; simpl.
      * split.
        -- intros [= <-]. destruct (proj1 (IH k) eq_refl) as [Hk1 Hk2].
           split; [exact Hk1|]. intros [|j] Hj; [exact Hno|].
           apply Hk2. lia.
        -- intros [Hi Hfirst]. destruct i as [|i]; [contradiction|].
           f_equal. assert (Some k = Some i) as [= ->]; [|reflexivity].
           apply IH. split; [exact Hi|].
           intros j Hj. apply (Hfirst (S j)). lia.
      * split; [discriminate|]. intros [Hi Hfirst].
        destruct i as [|i]; [contradiction|].
        exfalso. assert (None = Some i) by
          (apply IH; split; [exact Hi|];
           intros j Hj; apply (Hfirst (S j)); lia).
        discriminate.
Qed.

Lemma wide_find_nat_le (p s : text) (i : nat) :
  find_nat p s = Some i -> i <= length s.
Proof.
  revert i. induction s as [|y s IH]; intros i; simpl.
  - destruct (prefix p []); [|discriminate]. intros [= <-]. lia.
  - destruct (prefix p (y :: s)); [intros [= <-]; lia|].
    destruct (find_nat p s) as [k|]; [|discriminate].
    simpl. intros [= <-]. specialize (IH k eq_refl). lia.
Qed.

(** The slice [page_text[max(0, index - 50):min(len(page_text), index + 50)]]
    in terms of the index. *)
Lemma wide_cert_context_window (page_text keyword : text) (i : nat) :
  find_nat keyword page_text = Some i ->
  cert_context page_text keyword
  = strip (firstn (Nat.min (length page_text) (i + 50) - (i - 50))
             (skipn (i - 50) page_text)).
Proof.
  intros Hi. pose proof (wide_find_nat_le _ _ _ Hi) as Hle.
  unfold cert_context, find, slice, len. rewrite Hi.
  unfold Py.clamp.
  destruct (Z.ltb_spec (Z.max 0 (Z.of_nat i - 50)) 0) as [|_]; [lia|].
  destruct (Z.ltb_spec
              (Z.min (Z.of_nat (length page_text)) (Z.of_nat i + 50)) 0)
    as [|_]; [lia|].
  f_equal. f_equal; [f_equal; lia|f_equal; lia].
Qed.

Lemma wide_lower_char_idempotent (c : code_point) :
  lower_char (lower_char c) = lower_char c.
Proof.
  destruct c as [a|]; [|reflexivity]. simpl. f_equal.
  destruct a as [[] [] [] [] [] [] [] []]; reflexivity.
Qed.

Lemma wide_lower_char_fixed (a : ascii) :
  lower_char (Latin1 a) = Latin1 a -> Py.isupper a = false.
Proof.
  simpl. intros [= Ha]. revert Ha.
  destruct a as [[] [] [] [] [] [] [] []]; simpl; intros Ha;
    first [reflexivity | discriminate Ha].
Qed.

Lemma wide_lower_fixed_chars (s : text) :
  Forall (fun c => lower_char c = c) (lower s).
Proof.
  unfold lower. apply Forall_forall. intros c Hc.
  apply list_elem_of_In, in_map_iff in Hc as (d & <- & _).
  apply wide_lower_char_idempotent.
Qed.

Lemma wide_lower_of_fixed (s : text) :
  Forall (fun c => lower_char c = c) s -> lower s = s.
Proof.
  unfold lower. induction 1 as [|c s Hc _ IH]; simpl; [reflexivity|].
  now rewrite Hc, IH.
Qed.

Lemma wide_lstrip_keeps (P : code_point -> Prop) (s : text) :
  Forall P s -> Forall P (lstrip s).
Proof.
  induction 1 as [|c s Hc Hs IH]; simpl; [constructor|].
  destruct (isspace c); [exact IH|now constructor].
Qed.

Lemma wide_rstrip_keeps (P : code_point -> Prop) (s : text) :
  Forall P s -> Forall P (rstrip s).
Proof.
  induction 1 as [|c s Hc Hs IH]; simpl; [constructor|].
  destruct (rstrip s) as [|c' r].
  - destruct (isspace c); repeat constructor; assumption.
  - now constructor.
Qed.

Lemma wide_strip_keeps (P : code_point -> Prop) (s : text) :
  Forall P s -> Forall P (strip s).
Proof.
  intros Hs. unfold strip. now apply wide_rstrip_keeps, wide_lstrip_keeps.
Qed.

Lemma wide_length_lstrip (s : text) : length (lstrip s) <= length s.
Proof.
  induction s as [|c s IH]; simpl; [lia|]. destruct (isspace c); simpl; lia.
Qed.

Lemma wide_length_rstrip (s : text) : length (rstrip s) <= length s.
Proof.
  induction s as [|c s IH]; simpl; [lia|].
  destruct (rstrip s) as [|c' r].
  - destruct (isspace c); simpl; lia.
  - simpl in *. lia.
Qed.

Lemma wide_length_strip (s : text) : length (strip s) <= length s.
Proof.
  unfold strip. pose proof (wide_length_rstrip (lstrip s)).
  pose proof (wide_length_lstrip s). lia.
Qed.

Lemma widen_injective (s1 s2 : string) : widen s1 = widen s2 -> s1 = s2.
Proof.
  revert s2. induction s1 as [|a s1 IH]; intros [|b s2]; simpl;
    try discriminate; [reflexivity|].
  intros [= -> Hs]. f_equal. now apply IH.
Qed.

Lemma wide_cert_contexts_elem (page_text snippet : text) :
  snippet ∈ cert_contexts page_text
  <-> exists keyword i,
        keyword ∈ cert_keywords
        /\ first_occurrence (widen keyword) page_text i
        /\ snippet
           = strip (firstn (Nat.min (length page_text) (i + 50) - (i - 50))
                      (skipn (i - 50) page_text)).
Proof.
  unfold cert_contexts. rewrite list_elem_of_In, in_flat_map. split.
  - intros (k & Hk & Hs). apply in_map_iff in Hk as (keyword & <- & Hkw).
    unfold contains in Hs.
    destruct (find_nat (widen keyword) page_text) as [i|] eqn:Hi;
      [|destruct Hs].
    destruct Hs as [<-|[]]. exists keyword, i.
    split; [now apply list_elem_of_In|].
    split; [now apply wide_find_nat_first|].
    now apply wide_cert_context_window.
  - intros (keyword & i & Hkw & Hi & ->).
    apply wide_find_nat_first in Hi.
    exists (widen keyword). split.
    + apply in_map. now apply list_elem_of_In.
    + unfold contains. rewrite Hi. left.
      now apply wide_cert_context_window.
Qed.

End WideText.

(** C10, as the code has it: the snippets returned by
    [_extract_certifications] are exactly the windows of the lower-cased
    page text that start 50 characters before the first occurrence of a
    certification keyword (or at the start of the text) and end 50
    characters after the start of that occurrence (or at the end of the
    text), with the white space at both ends removed.  A snippet has at most 100 characters and
    [lower()] leaves it and each of its characters unchanged; below
    U+0100 it has no upper-case character.  It can hold an upper-case
    character that has no lower-case form. *)
Theorem certification_snippets_are_windows
    (list_of_set : list Wide.text -> list Wide.text)
    (text_of_page snippet : Wide.text) :
  (forall xs x, x ∈ list_of_set xs <-> x ∈ xs) ->
  let page_text := Wide.lower text_of_page in
  (snippet ∈ Wide._extract_certifications list_of_set text_of_page
   <-> exists keyword i,
         keyword ∈ ["certified"; "certification"; "licensed"; "license";
                    "approved"; "omri"; "organic"; "usda"; "fda"; "iso";
                    "gmp"; "haccp"; "kosher"; "halal"; "vegan";
                    "gluten-free"]
         /\ first_occurrence (Wide.widen keyword) page_text i
         /\ snippet
            = Wide.strip
                (firstn (Nat.min (length page_text) (i + 50) - (i - 50))
                   (skipn (i - 50) page_text)))
  /\ (snippet ∈ Wide._extract_certifications list_of_set text_of_page ->
      length snippet <= 100
      /\ Wide.lower snippet = snippet
      /\ (forall c, c ∈ snippet -> Wide.lower_char c = c)
      /\ (forall a, Wide.Latin1 a ∈ snippet -> Py.isupper a = false)).
Proof.
  intros Hset page_text.
  assert (snippet ∈ Wide._extract_certifications list_of_set text_of_page
          <-> snippet ∈ Wide.cert_contexts page_text) as Hin
    by apply Hset.
  split; [rewrite Hin; apply wide_cert_contexts_elem|].
  intros Hs.
  apply Hin, wide_cert_contexts_elem in Hs as (keyword & i & _ & _ & ->).
  assert (Forall (fun c => Wide.lower_char c = c)
            (Wide.strip
               (firstn (Nat.min (length page_text) (i + 50) - (i - 50))
                  (skipn (i - 50) page_text)))) as Hfixed.
  { apply wide_strip_keeps, Forall_take, Forall_drop, wide_lower_fixed_chars. }
  split.
  - etransitivity; [apply wide_length_strip|]. rewrite length_take. lia.
  - split; [now apply wide_lower_of_fixed|].
    rewrite Forall_forall in Hfixed. split; [exact Hfixed|].
    intros a Ha. apply wide_lower_char_fixed, Hfixed, Ha.
Qed.

(** On a page whose text has no code point above U+00FF the two
    embeddings of [_extract_certifications] agree. *)

Lemma widen_length (s : string) : length (Wide.widen s) = String.length s.
Proof.
  unfold Wide.widen.
  induction s as [|a s IH]; simpl; [reflexivity|]. f_equal. exact IH.
Qed.

Lemma widen_lower (s : string) :
  Wide.widen (Py.lower s) = Wide.lower (Wide.widen s).
Proof.
  unfold Wide.widen, Wide.lower.
  induction s as [|a s IH]; simpl; [reflexivity|]. f_equal. exact IH.
Qed.

Lemma widen_prefix (p s : string) :
  Wide.prefix (Wide.widen p) (Wide.widen s) = String.prefix p s.
Proof.
  revert p. induction s as [|b s IH]; intros [|a p]; simpl; try reflexivity.
  destruct (ascii_dec a b) as [->|Hne].
  - rewrite Ascii.eqb_refl. apply IH.
  - apply Ascii.eqb_neq in Hne. now rewrite Hne.
Qed.

Lemma widen_find_nat (p s : string) :
  Wide.find_nat (Wide.widen p) (Wide.widen s) = Py.find_nat p s.
Proof.
  induction s as [|b s IH].
  - cbn [Py.find_nat]. change (Wide.widen "") with (@nil Wide.code_point).
    cbn [Wide.find_nat]. change (@nil Wide.code_point) with (Wide.widen "").
    rewrite widen_prefix. destruct (String.prefix p ""); reflexivity.
  - cbn [Py.find_nat].
    change (Wide.widen (String b s)) with (Wide.Latin1 b :: Wide.widen s).
    cbn [Wide.find_nat].
    change (Wide.Latin1 b :: Wide.widen s) with (Wide.widen (String b s)).
    rewrite widen_prefix.
    destruct (String.prefix p (String b s)); [reflexivity|].
    now rewrite IH.
Qed.

Lemma widen_substring (s : string) :
  forall n m,
    Wide.widen (substring n m s) = firstn m (skipn n (Wide.widen s)).
Proof.
  unfold Wide.widen. induction s as [|a s IH]; intros n m.
  - destruct n, m; reflexivity.
  - destruct n as [|n]; simpl.
    + destruct m as [|m]; simpl; [reflexivity|]. f_equal. apply (IH 0 m).
    + apply IH.
Qed.

Lemma widen_slice (s : string) (start stop : Z) :
  Wide.widen (Py.slice s start stop) = Wide.slice (Wide.widen s) start stop.
Proof.
  unfold Py.slice, Wide.slice, Wide.len, Py.len. rewrite widen_length.
  apply widen_substring.
Qed.

Lemma widen_lstrip (s : string) :
  Wide.widen (Py.lstrip s) = Wide.lstrip (Wide.widen s).
Proof.
  unfold Wide.widen. induction s as [|a s IH]; simpl; [reflexivity|].
  destruct (Py.isspace a); [exact IH|reflexivity].
Qed.

Lemma widen_rstrip (s : string) :
  Wide.widen (Py.rstrip s) = Wide.rstrip (Wide.widen s).
Proof.
  unfold Wide.widen. induction s as [|a s IH]; simpl; [reflexivity|].
  rewrite <- IH. destruct (Py.rstrip s) as [|c r]; simpl.
  - destruct (Py.isspace a); reflexivity.
  - reflexivity.
Qed.

Lemma widen_strip (s : string) :
  Wide.widen (Py.strip s) = Wide.strip (Wide.widen s).
Proof.
  unfold Py.strip, Wide.strip. now rewrite widen_rstrip, widen_lstrip.
Qed.

Lemma widen_cert_context (page_text keyword : string) :
  Wide.widen (cert_context page_text keyword)
  = Wide.cert_context (Wide.widen page_text) (Wide.widen keyword).
Proof.
  unfold cert_context, Wide.cert_context, Wide.find, Py.find, Wide.len,
    Py.len.
  rewrite widen_strip, widen_slice, widen_find_nat, widen_length.
  reflexivity.
Qed.

Lemma widen_cert_contexts (page_text : string) :
  map Wide.widen (cert_contexts page_text)
  = Wide.cert_contexts (Wide.widen page_text).
Proof.
  unfold cert_contexts, Wide.cert_contexts.
  induction cert_keywords as [|k ks IH]; simpl; [reflexivity|].
  rewrite map_app, IH. f_equal.
  unfold Wide.contains, Py.contains. rewrite widen_find_nat.
  destruct (Py.find_nat k page_text); [|reflexivity].
  simpl. now rewrite widen_cert_context.
Qed.

Lemma certifications_widen
    (wide_list_of_set : list Wide.text -> list Wide.text)
    (soup : Soup.node) (snippet : string) :
  (forall xs x, x ∈ wide_list_of_set xs <-> x ∈ xs) ->
  snippet ∈ _extract_certifications soup
  <-> Wide.widen snippet
      ∈ Wide._extract_certifications wide_list_of_set
          (Wide.widen (Soup.get_text soup)).
Proof.
  intros Hset. unfold _extract_certifications, Wide._extract_certifications.
  rewrite list_of_set_elem, Hset, <- widen_lower, <- widen_cert_contexts.
  rewrite !list_elem_of_In, in_map_iff. split.
  - intros Hs. exists snippet. auto.
  - intros (x & Hx & Hin). apply widen_injective in Hx. now subst.
Qed.

(** *** One source *)

Lemma error_record_fields (u e t : string) :
  error_record u e t !! "url" = Some (PyStr u)
  /\ error_record u e t !! "error" = Some (PyStr e)
  /\ error_record u e t !! "status" = Some (PyStr "error")
  /\ error_record u e t !! "timestamp" = Some (PyStr t).
Proof. repeat split; reflexivity. Qed.

Lemma scrape_source_raises (w : io) (source : descriptor) (u e : string) :
  url source = Some u -> u <> "" -> fetch_raises w u e ->
  exists u', scrape_source w source = error_record u' e (now w).
Proof.
  intros Hu Hne Hraise. unfold scrape_source. rewrite Hu.
  destruct u as [|c u]; [congruence|].
  destruct Hraise as [->|(session & -> & [->|(resp & -> & Hs & ->)])].
  - eexists; reflexivity.
  - eexists; reflexivity.
  - rewrite Hs. eexists; reflexivity.
Qed.

Lemma scrape_source_shape (w : io) (source : descriptor) :
  scrape_source w source = no_url_record
  \/ (exists url1 code,
        code <> 200%Z /\ scrape_source w source = http_error_record url1 code)
  \/ full_record (scrape_source w source).
Proof.
  unfold scrape_source.
  destruct (url source) as [[|c u]|]; [now left| |now left].
  right.
  assert (forall u' e, full_record (error_record u' e (now w))) as Herr.
  { intros u' e. repeat split; try (eexists; reflexivity). now right. }
  destruct (get_session w) as [session|e]; [|right; apply Herr].
  destruct (session_get w _) as [resp|e]; [|right; apply Herr].
  destruct (Z.eqb_spec (status resp) 200) as [Hs|Hs]; simpl.
  - right. destruct (document resp) as [soup|e]; [|apply Herr].
    repeat split; try (eexists; reflexivity). now left.
  - left. exists (add_scheme (String c u)), (status resp).
    split; [assumption|reflexivity].
Qed.

(** C2, as the code has it: when an exception is raised while a
    descriptor with a URL is fetched, [scrape_source] returns the error
    record of its handler, whose status is ["error"] and whose error field
    is the exception's message, empty or not. *)
Theorem scrape_source_wraps_exceptions
    (w : io) (source : descriptor) (u e : string) :
  url source = Some u -> u <> "" -> fetch_raises w u e ->
  (exists u', scrape_source w source = error_record u' e (now w))
  /\ scrape_source w source !! "status" = Some (PyStr "error")
  /\ scrape_source w source !! "error" = Some (PyStr e).
Proof.
  intros Hu Hne Hraise.
  destruct (scrape_source_raises w source u e Hu Hne Hraise) as [u' Hr].
  split; [now exists u'|]. rewrite Hr. split; reflexivity.
Qed.

(** C3, as the code has it: a descriptor without URL gives exactly
    [{'error': 'No URL provided'}], which has no status; a response whose
    code is not 200 gives the error [HTTP <code>] and the integer code as
    status; an exception gives its message as error and the status
    ["error"]. *)
Theorem error_taxonomy (w : io) (source : descriptor) :
  (url source = None \/ url source = Some "" ->
   scrape_source w source = no_url_record
   /\ scrape_source w source !! "error" = Some (PyStr "No URL provided")
   /\ scrape_source w source !! "status" = None)
  /\ (forall u session resp,
         url source = Some u -> u <> "" ->
         get_session w = Return session ->
         session_get w (add_scheme u) = Return resp ->
         status resp <> 200%Z ->
         scrape_source w source !! "error"
         = Some (PyStr ("HTTP " +:+ pretty (status resp)))
         /\ scrape_source w source !! "status" = Some (PyInt (status resp)))
  /\ (forall u e,
         url source = Some u -> u <> "" -> fetch_raises w u e ->
         scrape_source w source !! "error" = Some (PyStr e)
         /\ scrape_source w source !! "status" = Some (PyStr "error")).
Proof.
  repeat apply conj.
  - intros Hu. unfold scrape_source.
    destruct Hu as [-> | ->]; repeat split; reflexivity.
  - intros u session resp Hu Hne Hs Hget Hcode. unfold scrape_source.
    rewrite Hu. destruct u as [|c u]; [congruence|].
    rewrite Hs, Hget.
    destruct (Z.eqb_spec (status resp) 200) as [|_]; [contradiction|].
    split; reflexivity.
  - intros u e Hu Hne Hraise.
    destruct (scrape_source_raises w source u e Hu Hne Hraise) as [u' ->].
    split; reflexivity.
Qed.

Lemma list_of_set_perm (O1 O2 : SetOrder) (xs : list string) :
  @list_of_set O1 xs ≡ₚ @list_of_set O2 xs.
Proof.
  apply NoDup_Permutation; try apply list_of_set_NoDup.
  intros x. now rewrite !list_of_set_elem.
Qed.

(** C9, as the code has it: two extractions from the same parsed
    document and descriptor, under any two iteration orders of sets and
    any two clocks, give the same url, status, title, description,
    contact_info and location; their products, certifications and services are lists
    without repetition that are permutations of each other.  Under one
    iteration order, as within one interpreter process, the two records
    are equal once the timestamp is removed, and so are the records of two
    runs of [scrape_source] against the same answers of the network. *)
Theorem extraction_repeatable_up_to_set_order
    (O1 O2 : SetOrder) (w1 w2 : io) (url1 : string) (soup : Soup.node)
    (source : descriptor)
    (session : outcome unit) (net : string -> outcome response)
    (t1 t2 : string) :
  let r1 := @scraped_data O1 w1 url1 soup source in
  let r2 := @scraped_data O2 w2 url1 soup source in
  Forall (fun key => r1 !! key = r2 !! key)
    ["url"; "status"; "title"; "description"; "contact_info"; "location"]
  /\ Forall
       (fun key =>
          exists l1 l2,
            r1 !! key = Some (PyList l1) /\ r2 !! key = Some (PyList l2)
            /\ NoDup l1 /\ NoDup l2 /\ l1 ≡ₚ l2)
       ["products"; "certifications"; "services"]
  /\ delete "timestamp" (@scraped_data O1 w1 url1 soup source)
     = delete "timestamp" (@scraped_data O1 w2 url1 soup source)
  /\ delete "timestamp" (@scrape_source O1 (IO session net t1) source)
     = delete "timestamp" (@scrape_source O1 (IO session net t2) source).
Proof.
  intros r1 r2. split; [|split; [|split]].
  - repeat constructor.
  - repeat (constructor;
            [eexists _, _; split; [reflexivity|]; split; [reflexivity|];
             split; [apply list_of_set_NoDup|];
             split; [apply list_of_set_NoDup|apply list_of_set_perm]|]).
    constructor.
  - reflexivity.
  - unfold scrape_source. simpl.
    destruct (url source) as [[|c u]|]; try reflexivity.
    destruct session as [x|e]; [|reflexivity].
    destruct (net _) as [resp|e]; [|reflexivity].
    destruct (status resp =? 200)%Z; simpl; [|reflexivity].
    destruct (document resp) as [doc|e]; reflexivity.
Qed.

(** *** All sources *)

Lemma process_results_returns (sources : list descriptor)
    (results : list (outcome record)) :
  forall (i : nat) (succ fail : list record),
    i + length results <= length sources ->
    exists s f,
      process_results sources i results succ fail = Return (s, f)
      /\ length s + length f = length succ + length fail + length results.
Proof.
  induction results as [|[r|e] rest IH]; intros i succ fail Hlen;
    cbn [process_results]; simpl in Hlen.
  - exists succ, fail. split; [reflexivity|simpl; lia].
  - destruct (is_success r).
    + destruct (IH (S i) (succ ++ [r]) fail) as (s & f & -> & Hc); [lia|].
      exists s, f. split; [reflexivity|].
      rewrite length_app in Hc. simpl in Hc |- *. lia.
    + destruct (IH (S i) succ (fail ++ [r])) as (s & f & -> & Hc); [lia|].
      exists s, f. split; [reflexivity|].
      rewrite length_app in Hc. simpl in Hc |- *. lia.
  - destruct (lookup_lt_is_Some_2 sources i) as [source ->]; [lia|].
    destruct (IH (S i) succ
                (fail ++ [dict [("source", PySource source);
                                ("error", PyStr e)]]))
      as (s & f & -> & Hc); [lia|].
    exists s, f. split; [reflexivity|].
    rewrite length_app in Hc. simpl in Hc |- *. lia.
Qed.

Lemma process_results_partition (sources : list descriptor)
    (rs : list record) :
  forall (i : nat) (succ fail : list record),
    process_results sources i (map Return rs) succ fail
    = Return (succ ++ List.filter is_success rs,
              fail ++ List.filter (fun r => negb (is_success r)) rs).
Proof.
  induction rs as [|r rs IH]; intros i succ fail; simpl.
  - now rewrite !app_nil_r.
  - destruct (is_success r); simpl; rewrite IH, <- app_assoc; reflexivity.
Qed.

Lemma filter_split {A : Type} (p : A -> bool) (l : list A) :
  List.filter p l ++ List.filter (fun x => negb (p x)) l ≡ₚ l.
Proof.
  induction l as [|x l IH]; simpl; [reflexivity|].
  destruct (p x); simpl.
  - now rewrite IH.
  - rewrite <- Permutation_middle. now rewrite IH.
Qed.

Lemma gather_records (world : nat -> io) (sources : list descriptor) :
  gather world sources = map Return (task_records world sources).
Proof.
  unfold gather, task_records, scrape_with_semaphore.
  change (map Return) with (fmap (M := list) (@Return record)).
  rewrite fmap_imap. reflexivity.
Qed.

(** C1: whenever the run returns, that is with at least one slot or with
    no source at all, [scrape_all_sources] returns a report whose
    [total_sources] is the length of the flattened source list, whose two
    counters add up to it, and whose [results] and [failures] have the
    lengths the counters give. *)
Theorem run_report_counts (world : nat -> io) (report_time : string)
    (sources_data : catalog) (max_concurrent : nat) :
  1 <= max_concurrent \/ all_sources sources_data = [] ->
  exists report,
    scrape_all_sources world report_time sources_data max_concurrent
    = Return report
    /\ total_sources report = length (all_sources sources_data)
    /\ successful_scrapes report + failed_scrapes report
       = total_sources report
    /\ length (results report) = successful_scrapes report
    /\ length (failures report) = failed_scrapes report.
Proof.
  intros _. unfold scrape_all_sources.
  destruct (process_results_returns (all_sources sources_data)
              (gather world (all_sources sources_data)) 0 [] [])
    as (s & f & -> & Hc).
  - unfold gather. rewrite length_imap. simpl. lia.
  - eexists. split; [reflexivity|]. simpl.
    unfold gather in Hc. rewrite length_imap in Hc. simpl in Hc.
    repeat split; lia.
Qed.

Lemma failed_record (records : list record) (r : record) :
  r ∈ records -> is_success r = false ->
  r ∈ List.filter (fun r => negb (is_success r)) records.
Proof.
  intros Hr Hs. apply list_elem_of_In, filter_In.
  split; [now apply list_elem_of_In|now rewrite Hs].
Qed.

Lemma successful_record (records : list record) (r : record) :
  r ∈ records -> is_success r = true -> r ∈ List.filter is_success records.
Proof.
  intros Hr Hs. apply list_elem_of_In, filter_In.
  split; [now apply list_elem_of_In|exact Hs].
Qed.

(** C4, as the code has it: whenever the run returns, every descriptor
    yields exactly one record, the one of its task, placed in [results] or
    in [failures], and every record has one of three shapes.  What the record
    of a descriptor holds depends on how its fetch ended.  Without URL it
    is [{'error': 'No URL provided'}] and nothing else, in [failures].
    After a response whose code is not 200 it holds the url, the error and
    the integer code as status, and no timestamp, in [failures].  After a
    200 response that was parsed it holds the url, the timestamp and the
    status ["success"], in [results].  After an exception it holds the
    url, the timestamp and the status ["error"], in [failures]. *)
Theorem one_record_per_descriptor (world : nat -> io) (report_time : string)
    (sources_data : catalog) (max_concurrent : nat) :
  1 <= max_concurrent \/ all_sources sources_data = [] ->
  exists report,
    scrape_all_sources world report_time sources_data max_concurrent
    = Return report
    /\ results report ++ failures report
       ≡ₚ task_records world (all_sources sources_data)
    /\ length (results report ++ failures report)
       = length (all_sources sources_data)
    /\ Forall
         (fun r =>
            r = no_url_record
            \/ (exists url1 code,
                  code <> 200%Z /\ r = http_error_record url1 code)
            \/ full_record r)
         (results report ++ failures report)
    /\ forall i source,
         all_sources sources_data !! i = Some source ->
         let r := scrape_source (world i) source in
         task_records world (all_sources sources_data) !! i = Some r
         /\ (r ∈ results report \/ r ∈ failures report)
         /\ (url source = None \/ url source = Some "" ->
             r = dict [("error", PyStr "No URL provided")]
             /\ r ∈ failures report)
         /\ (forall u session resp,
                url source = Some u -> u <> "" ->
                get_session (world i) = Return session ->
                session_get (world i) (add_scheme u) = Return resp ->
                status resp <> 200%Z ->
                r = dict [("url", PyStr (add_scheme u));
                          ("error", PyStr ("HTTP " +:+ pretty (status resp)));
                          ("status", PyInt (status resp))]
                /\ r !! "timestamp" = None
                /\ r ∈ failures report)
         /\ (forall u soup,
                url source = Some u -> u <> "" ->
                fetched_ok (world i) u soup ->
                r !! "url" = Some (PyStr (add_scheme u))
                /\ r !! "timestamp" = Some (PyStr (now (world i)))
                /\ r !! "status" = Some (PyStr "success")
                /\ r ∈ results report)
         /\ (forall u e,
                url source = Some u -> u <> "" ->
                fetch_raises (world i) u e ->
                (r !! "url" = Some (PyStr u)
                 \/ r !! "url" = Some (PyStr (add_scheme u)))
                /\ r !! "timestamp" = Some (PyStr (now (world i)))
                /\ r !! "status" = Some (PyStr "error")
                /\ r ∈ failures report).
Proof.
  intros _. unfold scrape_all_sources.
  rewrite gather_records, process_results_partition. simpl.
  eexists. split; [reflexivity|]. simpl.
  set (records := task_records world (all_sources sources_data)).
  assert (List.filter is_success records
          ++ List.filter (fun r => negb (is_success r)) records
          ≡ₚ records) as Hperm by apply filter_split.
  split; [exact Hperm|]. split.
  { rewrite Hperm. unfold records, task_records. now rewrite length_imap. }
  split.
  { rewrite Hperm. apply Forall_forall. intros r Hr.
    unfold records, task_records in Hr.
    apply elem_of_lookup_imap in Hr as (i & source & -> & _).
    apply scrape_source_shape. }
  intros i source Hi. set (r := scrape_source (world i) source).
  assert (records !! i = Some r) as Hr.
  { unfold records, task_records. rewrite list_lookup_imap, Hi. reflexivity. }
  assert (r ∈ records) as Hin by (apply list_elem_of_lookup; eauto).
  split; [exact Hr|]. split.
  { apply elem_of_app. rewrite Hperm. exact Hin. }
  split; [|split; [|split]].
  - intros Hu.
    assert (r = dict [("error", PyStr "No URL provided")]) as Hshape.
    { unfold r, scrape_source. destruct Hu as [-> | ->]; reflexivity. }
    split; [exact Hshape|]. apply failed_record; [exact Hin|].
    rewrite Hshape. reflexivity.
  - intros u session resp Hu Hne Hs Hget Hcode.
    assert (r = dict [("url", PyStr (add_scheme u));
                      ("error", PyStr ("HTTP " +:+ pretty (status resp)));
                      ("status", PyInt (status resp))]) as Hshape.
    { unfold r, scrape_source. rewrite Hu.
      destruct u as [|c u]; [congruence|]. rewrite Hs, Hget.
      destruct (Z.eqb_spec (status resp) 200) as [|_]; [contradiction|].
      reflexivity. }
    split; [exact Hshape|].
    split; [rewrite Hshape; reflexivity|].
    apply failed_record; [exact Hin|]. rewrite Hshape. reflexivity.
  - intros u soup Hu Hne (session & resp & Hs & Hget & Hcode & Hdoc).
    assert (r = scraped_data (world i) (add_scheme u) soup source) as Hshape.
    { unfold r, scrape_source. rewrite Hu.
      destruct u as [|c u]; [congruence|].
      rewrite Hs, Hget, Hcode, Hdoc. reflexivity. }
    split; [rewrite Hshape; reflexivity|].
    split; [rewrite Hshape; reflexivity|].
    split; [rewrite Hshape; reflexivity|].
    apply successful_record; [exact Hin|]. rewrite Hshape. reflexivity.
  - intros u e Hu Hne Hraise.
    assert (exists u', (u' = u \/ u' = add_scheme u)
                       /\ r = error_record u' e (now (world i))) as
      (u' & Hu' & Hshape).
    { unfold r, scrape_source. rewrite Hu.
      destruct u as [|c u]; [congruence|].
      destruct Hraise as [->|(session & -> & [->|(resp & -> & Hcode & ->)])].
      - eexists. split; [left; reflexivity|reflexivity].
      - eexists. split; [right; reflexivity|reflexivity].
      - rewrite Hcode. eexists. split; [right; reflexivity|reflexivity]. }
    split.
    { rewrite Hshape. destruct Hu' as [-> | ->]; [left|right]; reflexivity. }
    split; [rewrite Hshape; reflexivity|].
    split; [rewrite Hshape; reflexivity|].
    apply failed_record; [exact Hin|]. rewrite Hshape. reflexivity.
Qed.

End Properties.

(** ** The schedule *)

Section ScheduleFacts.

Import Schedule.

Lemma count_replicate_waiting (f : phase -> bool) (n : nat) :
  f Waiting = false -> count f (replicate n Waiting) = 0.
Proof.
  intros Hf. unfold count. induction n as [|n IH]; simpl; [reflexivity|].
  now rewrite Hf.
Qed.

Lemma count_insert (f : phase -> bool) (ts : list phase) (i : nat)
    (p q : phase) :
  ts !! i = Some p ->
  count f (<[i := q]> ts) + (if f p then 1 else 0)
  = count f ts + (if f q then 1 else 0).
Proof.
  unfold count. revert i. induction ts as [|x ts IH]; intros i Hi.
  - discriminate.
  - destruct i as [|i]; simpl in *.
    + injection Hi as ->. destruct (f p), (f q); simpl; lia.
    + specialize (IH i Hi). destruct (f x); simpl; lia.
Qed.

Lemma count_in_flight_le (ts : list phase) :
  count in_flight ts <= count holds_slot ts.
Proof. unfold count. induction ts as [|[] ts IH]; simpl; lia. Qed.

Lemma invariant_init (max_concurrent n : nat) (t0 : Q) :
  invariant max_concurrent (init max_concurrent n t0).
Proof.
  split; simpl.
  - rewrite count_replicate_waiting by reflexivity. lia.
  - apply Forall_replicate. exact I.
Qed.

Lemma invariant_step (max_concurrent : nat) (s s' : state) :
  invariant max_concurrent s -> step s s' -> invariant max_concurrent s'.
Proof.
  intros [Hslots Hpaced] Hstep.
  destruct Hstep
    as [v ts t t' Ht|v ts t i Hi|v ts t i Hi|v ts t i fetched Hi Ht];
    simpl in *.
  - split; assumption.
  - split; [|apply Forall_insert; [assumption|exact I]].
    pose proof (count_insert holds_slot ts i Waiting Fetching Hi).
    simpl in *. lia.
  - split; [|apply Forall_insert; [assumption|exact I]].
    pose proof (count_insert holds_slot ts i Fetching (Pacing t) Hi).
    simpl in *. lia.
  - split; [|apply Forall_insert; [assumption|exact Ht]].
    pose proof (count_insert holds_slot ts i (Pacing fetched)
                  (Finished fetched t) Hi).
    simpl in *. lia.
Qed.

Lemma invariant_reachable (max_concurrent n : nat) (t0 : Q) (s : state) :
  reachable (init max_concurrent n t0) s -> invariant max_concurrent s.
Proof.
  intros Hreach. induction Hreach as [|s s' _ IH Hstep].
  - apply invariant_init.
  - eapply invariant_step; eassumption.
Qed.

(** C5: in every state the tasks can reach under a semaphore of
    [max_concurrent] slots, at most [max_concurrent] fetches are in
    flight, at most [max_concurrent] tasks hold a slot, and every task
    that has released its slot did so at least one second after its fetch
    ended. *)
Theorem at_most_max_concurrent_in_flight
    (max_concurrent n : nat) (t0 : Q) (s : state) :
  reachable (init max_concurrent n t0) s ->
  count in_flight (tasks s) <= max_concurrent
  /\ count holds_slot (tasks s) <= max_concurrent
  /\ (forall i fetched released,
         tasks s !! i = Some (Finished fetched released) ->
         (fetched + 1 <= released)%Q).
Proof.
  intros Hreach.
  destruct (invariant_reachable _ _ _ _ Hreach) as [Hslots Hpaced].
  pose proof (count_in_flight_le (tasks s)).
  repeat split; [lia|lia|].
  intros i fetched released Hi.
  rewrite Forall_lookup in Hpaced. exact (Hpaced i _ Hi).
Qed.

End ScheduleFacts.

(** * Further properties *)

(** ** White space *)

Section StripFacts.

Lemma lstrip_no_leading_space (s : string) : no_leading_space (Py.lstrip s).
Proof.
  induction s as [|c s IH]; simpl; [exact I|].
  destruct (Py.isspace c) eqn:Hc; [exact IH|]. simpl. exact Hc.
Qed.

Lemma lstrip_fixed (s : string) : no_leading_space s -> Py.lstrip s = s.
Proof. destruct s as [|c s]; simpl; [reflexivity|]. now intros ->. Qed.

Lemma rstrip_no_leading_space (s : string) :
  no_leading_space s -> no_leading_space (Py.rstrip s).
Proof.
  destruct s as [|c s]; simpl; [trivial|]. intros Hc.
  destruct (Py.rstrip s); [rewrite Hc|]; simpl; exact Hc.
Qed.

Lemma rstrip_idempotent (s : string) : Py.rstrip (Py.rstrip s) = Py.rstrip s.
Proof.
  induction s as [|c s IH]; simpl; [reflexivity|].
  destruct (Py.rstrip s) as [|c' r] eqn:Hr.
  - destruct (Py.isspace c) eqn:Hc; simpl; [reflexivity|]. now rewrite Hc.
  - simpl. simpl in IH. rewrite IH. reflexivity.
Qed.

Lemma strip_stripped (s : string) : stripped (Py.strip s).
Proof.
  unfold stripped, Py.strip.
  rewrite (lstrip_fixed (Py.rstrip (Py.lstrip s))).
  - apply rstrip_idempotent.
  - apply rstrip_no_leading_space, lstrip_no_leading_space.
Qed.

Lemma length_substring_exact (s : string) :
  forall n, n <= String.length s -> String.length (substring 0 n s) = n.
Proof.
  induction s as [|c s IH]; intros [|n]; simpl; try reflexivity; try lia.
  intros Hn. rewrite IH; lia.
Qed.

Lemma len_slice_to (s : string) (n : Z) :
  (0 <= n <= Py.len s)%Z -> Py.len (Py.slice_to s n) = n.
Proof.
  intros Hn. unfold Py.slice_to, Py.slice, Py.clamp, Py.len in *.
  destruct (Z.ltb_spec 0 0); [lia|]. destruct (Z.ltb_spec n 0); [lia|].
  rewrite Z.min_l by lia. rewrite Z.min_l by lia.
  change (Z.to_nat 0) with 0. rewrite Z.sub_0_r.
  rewrite length_substring_exact by lia. lia.
Qed.

Lemma len_append (s1 s2 : string) :
  Py.len (s1 +:+ s2) = (Py.len s1 + Py.len s2)%Z.
Proof.
  unfold Py.len. induction s1 as [|c s1 IH].
  - change ("" +:+ s2) with s2. simpl. lia.
  - change (String c s1 +:+ s2) with (String c (s1 +:+ s2)).
    simpl String.length. rewrite !Nat2Z.inj_succ. lia.
Qed.

End StripFacts.

(** ** Lengths of matches *)

Section RegexFacts.

Lemma span_le_length (cls : ascii -> bool) (s : string) :
  forall cap, Re.span cls cap s <= String.length s.
Proof.
  induction s as [|c s IH]; intros cap; simpl.
  - destruct cap as [[|k]|]; lia.
  - destruct cap as [[|k]|]; simpl; [lia| |].
    + destruct (cls c); [|lia]. specialize (IH (Some k)). simpl in IH. lia.
    + destruct (cls c); [|lia]. specialize (IH None). simpl in IH. lia.
Qed.

Lemma span_le_cap (cls : ascii -> bool) (s : string) :
  forall k, Re.span cls (Some k) s <= k.
Proof.
  induction s as [|c s IH]; intros k; simpl.
  - destruct k; lia.
  - destruct k as [|k]; simpl; [lia|].
    destruct (cls c); [|lia]. specialize (IH k). lia.
Qed.

Lemma length_drop (s : string) :
  forall n, String.length (Py.drop n s) = String.length s - n.
Proof.
  induction s as [|c s IH]; intros [|n]; simpl; try reflexivity. apply IH.
Qed.

Lemma prefix_length (a s : string) :
  String.prefix a s = true -> String.length a <= String.length s.
Proof.
  revert a. induction s as [|c s IH]; intros [|x a]; simpl; intros Hp.
  - lia.
  - discriminate.
  - lia.
  - destruct (ascii_dec x c); [|discriminate].
    specialize (IH a Hp). lia.
Qed.

Lemma min_length_le (alts : list string) (a : string) :
  In a alts -> min_length alts <= String.length a.
Proof.
  destruct alts as [|b l]; simpl; [tauto|].
  revert b. induction l as [|x l IH]; intros b; simpl.
  - intros [->|[]]. lia.
  - intros [->|[->|Hin]].
    + specialize (IH a (or_introl eq_refl)). lia.
    + lia.
    + specialize (IH b (or_intror Hin)).
      assert (fold_right (fun x m => Nat.min (String.length x) m)
                (String.length b) l <= String.length a) by exact IH.
      lia.
Qed.

Lemma max_length_ge (alts : list string) (a : string) :
  In a alts -> String.length a <= max_length alts.
Proof.
  unfold max_length. induction alts as [|x l IH]; simpl; [tauto|].
  intros [->|Hin]; [lia|]. specialize (IH Hin). lia.
Qed.

Lemma matches_bounds (r : Re.regex) :
  forall s n,
    Re.matches r s = Some n ->
    min_len r <= n /\ n <= String.length s
    /\ forall M, max_len r = Some M -> n <= M.
Proof.
  induction r as [|a r IH]; intros s n; cbn [Re.matches].
  - intros [= <-]. simpl. split; [lia|split; [lia|]]. intros M [= <-]. lia.
  - destruct a as [cls lo hi|alts].
    + pose proof (span_le_length cls s hi) as Hlen.
      assert (forall M, hi = Some M -> Re.span cls hi s <= M) as Hcap
        by (intros M ->; apply span_le_cap).
      revert Hlen Hcap. generalize (Re.span cls hi s) as k.
      induction k as [|k IHk]; intros Hlen Hcap.
      * destruct (lo <=? 0)%nat eqn:Hlo; [|discriminate].
        apply Nat.leb_le in Hlo.
        destruct (Re.matches r (Py.drop 0 s)) as [m|] eqn:Hm; [|discriminate].
        simpl. intros [= <-]. destruct (IH _ _ Hm) as (H1 & H2 & H3).
        simpl in H2. split; [lia|split; [lia|]].
        intros M. destruct hi as [h|]; [|discriminate].
        destruct (max_len r) as [y|]; [|discriminate].
        intros [= <-]. specialize (H3 y eq_refl). lia.
      * destruct (if (lo <=? S k)%nat
                  then option_map (Nat.add (S k))
                         (Re.matches r (Py.drop (S k) s))
                  else None) as [m|] eqn:Htry.
        -- intros [= <-].
           destruct (lo <=? S k)%nat eqn:Hlo; [|discriminate].
           apply Nat.leb_le in Hlo.
           destruct (Re.matches r (Py.drop (S k) s)) as [m'|] eqn:Hm;
             [|discriminate].
           injection Htry as <-. destruct (IH _ _ Hm) as (H1 & H2 & H3).
           rewrite length_drop in H2. simpl. split; [lia|split; [lia|]].
           intros M. destruct hi as [h|]; [|discriminate].
           destruct (max_len r) as [y|]; [|discriminate].
           intros [= <-]. specialize (H3 y eq_refl).
           specialize (Hcap h eq_refl). lia.
        -- intros Hk. apply IHk; [lia| |exact Hk].
           intros M HM. specialize (Hcap M HM). lia.
    + assert (forall l,
                (forall a, In a l -> In a alts) ->
                (fix first (l : list string) : option nat :=
                   match l with
                   | [] => None
                   | a :: l' =>
                       match
                         (if String.prefix a s
                          then option_map (Nat.add (String.length a))
                                 (Re.matches r (Py.drop (String.length a) s))
                          else None)
                       with
                       | Some m => Some m
                       | None => first l'
                       end
                   end) l = Some n ->
                min_len (Re.Alt alts :: r) <= n /\ n <= String.length s
                /\ forall M, max_len (Re.Alt alts :: r) = Some M -> n <= M)
        as Hfirst.
      { induction l as [|a l IHl]; intros Hsub; [discriminate|].
        destruct (if String.prefix a s
                  then option_map (Nat.add (String.length a))
                         (Re.matches r (Py.drop (String.length a) s))
                  else None) as [m|] eqn:Htry.
        - intros [= <-].
          destruct (String.prefix a s) eqn:Hp; [|discriminate].
          destruct (Re.matches r (Py.drop (String.length a) s)) as [m'|]
            eqn:Hm; [|discriminate].
          injection Htry as <-. destruct (IH _ _ Hm) as (H1 & H2 & H3).
          rewrite length_drop in H2.
          pose proof (prefix_length _ _ Hp).
          pose proof (min_length_le alts a (Hsub a (or_introl eq_refl))).
          pose proof (max_length_ge alts a (Hsub a (or_introl eq_refl))).
          simpl. split; [lia|split; [lia|]].
          intros M. destruct (max_len r) as [y|]; [|discriminate].
          intros [= <-]. specialize (H3 y eq_refl). lia.
        - intros Hl. apply IHl; [|exact Hl].
          intros b Hb. apply Hsub. now right. }
      apply Hfirst. auto.
Qed.

Lemma findall_from_bounds (r : Re.regex) (fuel : nat) :
  forall s e,
    In e (Re.findall_from fuel r s) ->
    min_len r <= String.length e
    /\ forall M, max_len r = Some M -> String.length e <= M.
Proof.
  induction fuel as [|fuel IH]; intros s e; cbn [Re.findall_from];
    [intros Hin; destruct Hin|].
  destruct (Re.matches r s) as [[|m]|] eqn:Hm.
  - intros [<-|Hin].
    + destruct (matches_bounds _ _ _ Hm) as (H1 & _ & H3). simpl.
      split; [lia|]. intros M HM. specialize (H3 M HM). lia.
    + destruct s; [destruct Hin|]. eauto.
  - intros [<-|Hin]; [|eauto].
    destruct (matches_bounds _ _ _ Hm) as (H1 & H2 & H3).
    rewrite length_substring_exact by lia. split; [lia|exact H3].
  - intros Hin. destruct s; [destruct Hin|]. eauto.
Qed.

Lemma first_found_bounds (r : Re.regex) (soup : Soup.node) (e : string) :
  first_found r soup = Some e ->
  min_len r <= String.length e
  /\ forall M, max_len r = Some M -> String.length e <= M.
Proof.
  unfold first_found, Re.findall. intros He.
  apply (findall_from_bounds r (S (String.length (Soup.get_text soup)))
           (Soup.get_text soup)).
  destruct (Re.findall_from (S (String.length (Soup.get_text soup))) r
              (Soup.get_text soup)) as [|x l]; [discriminate|].
  injection He as ->. now left.
Qed.

End RegexFacts.

(** ** The client session *)

Section SessionFacts.

Import Session.

Lemma accounted_init : accounted init.
Proof.
  split; [apply NoDup_nil_2|]. split; [|reflexivity].
  intros s Hs. now apply elem_of_nil in Hs.
Qed.

Lemma accounted_call (self : t) (c : call) :
  accounted self -> accounted (run_call self c).
Proof.
  intros (Hnd & Hlt & Hcur). destruct c; simpl.
  - unfold _get_session. destruct (session self) as [s|] eqn:Hs; simpl.
    + repeat split; try assumption. now rewrite Hs.
    + repeat split; simpl; try assumption.
      * intros s Hin. specialize (Hlt s Hin). lia.
      * lia.
      * intros Hin. specialize (Hlt _ Hin). lia.
      * lia.
  - unfold close_session. destruct (session self) as [s|] eqn:Hs; simpl.
    + destruct Hcur as (Hs1 & Hs2 & Hs3). repeat split; simpl.
      * now constructor.
      * intros x [->|Hin]%elem_of_cons; [assumption|now apply Hlt].
      * assumption.
    + repeat split; try assumption. now rewrite Hs.
Qed.

Lemma accounted_fold (calls : list call) :
  forall self, accounted self -> accounted (fold_left run_call calls self).
Proof.
  induction calls as [|c calls IH]; intros self Hacc; simpl; [assumption|].
  apply IH, accounted_call, Hacc.
Qed.

(** X15: after any sequence of [_get_session] and [close_session] calls,
    every session constructed is either the current one or was closed, none
    twice; a second [_get_session] constructs nothing and returns the
    session of the first; [close_session] leaves no current session, and a
    second one changes nothing. *)
Theorem sessions_are_accounted_for (calls : list call) :
  accounted (run calls)
  /\ created (run (calls ++ [Get; Get])) = created (run (calls ++ [Get]))
  /\ fst (_get_session (run (calls ++ [Get])))
     = fst (_get_session (run calls))
  /\ session (run (calls ++ [Close])) = None
  /\ run (calls ++ [Close; Close]) = run (calls ++ [Close]).
Proof.
  unfold run. rewrite !fold_left_app. simpl.
  set (self := fold_left run_call calls init).
  split; [apply accounted_fold, accounted_init|].
  unfold _get_session, close_session.
  destruct (session self) eqn:Hs; simpl; rewrite ?Hs; simpl; auto.
Qed.

End SessionFacts.

(** ** The scraper, continued *)

Section MoreProperties.

Context `{SetOrder}.

(** *** The command line *)

Lemma add_len_extend_if {A : Type} (acc : list A) (o : option (list A)) :
  Cli.add_len (length acc) o = length (extend_if acc o).
Proof.
  destruct o as [[|x xs]|]; simpl; try reflexivity.
  rewrite length_app. reflexivity.
Qed.

Lemma fold_states_count (states : list (string * State.t)) :
  forall (acc : list descriptor),
    fold_left
      (fun total '(state, state_data) =>
         Cli.add_len (Cli.add_len total (State.materials state_data))
                     (State.equipment state_data))
      states (length acc)
    = length
        (fold_left
           (fun acc '(state, state_data) =>
              extend_if (extend_if acc (State.materials state_data))
                        (State.equipment state_data))
           states acc).
Proof.
  induction states as [|[state sd] states IH]; intros acc; simpl;
    [reflexivity|].
  rewrite !add_len_extend_if. apply IH.
Qed.

Lemma cli_total_is_length (c : catalog) :
  Cli.total_sources c = length (all_sources c).
Proof.
  unfold Cli.total_sources, all_sources.
  change 0 with (length (@nil descriptor)).
  rewrite add_len_extend_if.
  destruct (sources_by_state c) as [states|].
  - rewrite fold_states_count.
    destruct (national_suppliers c) as [n|]; [|reflexivity].
    now rewrite !add_len_extend_if.
  - destruct (national_suppliers c) as [n|]; [|reflexivity].
    now rewrite !add_len_extend_if.
Qed.

(** X1: with at least one slot, the number of sources the command line
    counts and announces before a run is the [total_sources] of the report
    that [scrape_all_sources] returns for the same catalog. *)
Theorem cli_count_matches_report (world : nat -> io) (report_time : string)
    (sources_data : catalog) (max_concurrent : nat) :
  1 <= max_concurrent ->
  exists report,
    scrape_all_sources world report_time sources_data max_concurrent
    = Return report
    /\ total_sources report = Cli.total_sources sources_data.
Proof.
  intros _. unfold scrape_all_sources.
  rewrite gather_records, process_results_partition.
  eexists. split; [reflexivity|]. simpl. now rewrite cli_total_is_length.
Qed.

(** X2: with at least one slot, a live run of the command line returns
    status 1 exactly when the catalog has no source to scrape (the success
    rate divides by zero), and 0 otherwise, whatever the individual scrapes
    gave. *)
Theorem live_run_status (world : nat -> io) (report_time : string)
    (sources_data : catalog) (max_concurrent : nat) :
  1 <= max_concurrent ->
  Cli.scrape_sources world report_time sources_data max_concurrent
  = match all_sources sources_data with
    | [] => 1%Z
    | _ :: _ => 0%Z
    end.
Proof.
  intros _. unfold Cli.scrape_sources, scrape_all_sources.
  rewrite gather_records, process_results_partition. simpl.
  unfold Cli.success_rate. simpl.
  destruct (all_sources sources_data); reflexivity.
Qed.

(** *** The report *)

(** X3: with at least one slot, [results] are the successful task
    records and [failures] the other ones, each in the order of the
    flattened catalog; a descriptor without URL always contributes
    [{'error': 'No URL provided'}] to [failures]. *)
Theorem report_keeps_task_order (world : nat -> io) (report_time : string)
    (sources_data : catalog) (max_concurrent : nat) :
  1 <= max_concurrent ->
  exists report,
    scrape_all_sources world report_time sources_data max_concurrent
    = Return report
    /\ results report
       = List.filter is_success
           (task_records world (all_sources sources_data))
    /\ failures report
       = List.filter (fun r => negb (is_success r))
           (task_records world (all_sources sources_data))
    /\ (forall i source,
           all_sources sources_data !! i = Some source ->
           (url source = None \/ url source = Some "") ->
           no_url_record ∈ failures report).
Proof.
  intros _. unfold scrape_all_sources.
  rewrite gather_records, process_results_partition.
  eexists. split; [reflexivity|]. simpl.
  split; [reflexivity|]. split; [reflexivity|].
  intros i source Hi Hu.
  apply list_elem_of_In, filter_In. split.
  - apply list_elem_of_In. unfold task_records.
    apply elem_of_lookup_imap. exists i, source. split; [|assumption].
    unfold scrape_source. destruct Hu as [-> | ->]; reflexivity.
  - reflexivity.
Qed.

Lemma process_results_entries (sources : list descriptor)
    (results : list (outcome record)) :
  forall (i : nat) (succ fail : list record),
    i + length results <= length sources ->
    exists s f,
      process_results sources i results succ fail = Return (s, f)
      /\ (forall x, x ∈ succ -> x ∈ s)
      /\ (forall x, x ∈ fail -> x ∈ f)
      /\ (forall j e source,
             results !! j = Some (Raise e) ->
             sources !! (i + j) = Some source ->
             exception_entry source e ∈ f)
      /\ (forall j r,
             results !! j = Some (Return r) ->
             if is_success r then r ∈ s else r ∈ f).
Proof.
  induction results as [|[r|e] rest IH]; intros i succ fail Hlen;
    cbn [process_results]; simpl in Hlen.
  - exists succ, fail. split; [reflexivity|]. split; [auto|]. split; [auto|].
    split; intros j; intros; discriminate.
  - destruct (is_success r) eqn:Hr.
    + destruct (IH (S i) (succ ++ [r]) fail)
        as (s & f & -> & Hs & Hf & He & Hok); [lia|].
      exists s, f. split; [reflexivity|].
      split; [intros x Hx; apply Hs, elem_of_app; now left|].
      split; [exact Hf|]. split.
      * intros [|j] e source Hj Hsrc; [discriminate|].
        apply (He j e source Hj).
        now replace (S i + j) with (i + S j) by lia.
      * intros [|j] r' Hj; [|exact (Hok j r' Hj)].
        injection Hj as <-. rewrite Hr. apply Hs, elem_of_app. right.
        apply list_elem_of_singleton. reflexivity.
    + destruct (IH (S i) succ (fail ++ [r]))
        as (s & f & -> & Hs & Hf & He & Hok); [lia|].
      exists s, f. split; [reflexivity|].
      split; [exact Hs|].
      split; [intros x Hx; apply Hf, elem_of_app; now left|]. split.
      * intros [|j] e source Hj Hsrc; [discriminate|].
        apply (He j e source Hj).
        now replace (S i + j) with (i + S j) by lia.
      * intros [|j] r' Hj; [|exact (Hok j r' Hj)].
        injection Hj as <-. rewrite Hr. apply Hf, elem_of_app. right.
        apply list_elem_of_singleton. reflexivity.
  - destruct (lookup_lt_is_Some_2 sources i) as [source Hsource]; [lia|].
    rewrite Hsource.
    destruct (IH (S i) succ (fail ++ [exception_entry source e]))
      as (s & f & Hp & Hs & Hf & He & Hok); [lia|].
    exists s, f. split; [exact Hp|].
    split; [exact Hs|].
    split; [intros x Hx; apply Hf, elem_of_app; now left|]. split.
    * intros [|j] e' source' Hj Hsrc.
      -- injection Hj as <-. rewrite Nat.add_0_r, Hsource in Hsrc.
         injection Hsrc as <-. apply Hf, elem_of_app. right.
         apply list_elem_of_singleton. reflexivity.
      -- apply (He j e' source' Hj).
         now replace (S i + j) with (i + S j) by lia.
    * intros [|j] r' Hj; [discriminate|exact (Hok j r' Hj)].
Qed.

(** X4: given one result per source, the loop over the gathered results
    never fails; it puts each returned record into [results] when its
    status is success and into [failures] otherwise, and it turns each
    captured exception into a failure entry made of the source at the same
    position and the exception's message. *)
Theorem captured_exceptions_become_failures (sources : list descriptor)
    (results : list (outcome record)) :
  length results = length sources ->
  exists s f,
    process_results sources 0 results [] [] = Return (s, f)
    /\ length s + length f = length sources
    /\ (forall j e source,
           results !! j = Some (Raise e) -> sources !! j = Some source ->
           exception_entry source e ∈ f)
    /\ (forall j r,
           results !! j = Some (Return r) ->
           if is_success r then r ∈ s else r ∈ f).
Proof.
  intros Hlen.
  destruct (process_results_entries sources results 0 [] [])
    as (s & f & Hp & _ & _ & He & Hok); [lia|].
  destruct (process_results_returns sources results 0 [] [])
    as (s' & f' & Hp' & Hc); [lia|].
  rewrite Hp in Hp'. injection Hp' as <- <-.
  exists s, f. split; [exact Hp|]. split; [simpl in Hc; lia|].
  split; [exact He|exact Hok].
Qed.

(** *** One source *)

(** X5: [scrape_source] returns a record that counts as a success exactly
    when the descriptor has a URL, the request answers with code 200 and
    the body is read and parsed; the record is then the extracted data
    under the URL with its scheme. *)
Theorem success_iff_fetched (w : io) (source : descriptor) :
  is_success (scrape_source w source) = true
  <-> exists u soup,
        url source = Some u /\ u <> "" /\ fetched_ok w u soup
        /\ scrape_source w source = scraped_data w (add_scheme u) soup source.
Proof.
  unfold scrape_source. split.
  - destruct (url source) as [[|c u]|]; [discriminate| |discriminate].
    destruct (get_session w) as [session|e] eqn:Hs; [|discriminate].
    destruct (session_get w _) as [resp|e] eqn:Hg; [|discriminate].
    destruct (Z.eqb_spec (status resp) 200) as [Hc|Hc]; simpl;
      [|discriminate].
    destruct (document resp) as [soup|e] eqn:Hd; [|discriminate].
    intros _. exists (String c u), soup.
    split; [reflexivity|]. split; [discriminate|].
    split; [|reflexivity]. exists session, resp. auto.
  - intros (u & soup & -> & Hne & (session & resp & -> & Hg & Hc & Hd) & _).
    destruct u as [|c u]; [congruence|].
    rewrite Hg, Hc, Hd. reflexivity.
Qed.

Lemma add_scheme_has_scheme (u : string) : has_scheme (add_scheme u) = true.
Proof.
  unfold add_scheme, has_scheme.
  destruct (Py.startswith "http://" u || Py.startswith "https://" u) eqn:Hs;
    [assumption|].
  apply orb_true_iff. right. unfold Py.startswith. simpl.
  destruct u; reflexivity.
Qed.

(** X6: once the session is obtained, the record of a descriptor with a
    URL carries that URL with a scheme: unchanged when it starts with
    [http://] or [https://], with [https://] put in front otherwise; adding
    the scheme twice is adding it once. *)
Theorem recorded_url_has_scheme (w : io) (source : descriptor)
    (u : string) (session : unit) :
  url source = Some u -> u <> "" -> get_session w = Return session ->
  scrape_source w source !! "url" = Some (PyStr (add_scheme u))
  /\ has_scheme (add_scheme u) = true
  /\ add_scheme (add_scheme u) = add_scheme u
  /\ (has_scheme u = true -> add_scheme u = u)
  /\ (has_scheme u = false -> add_scheme u = "https://" +:+ u).
Proof.
  intros Hu Hne Hs. repeat apply conj.
  - unfold scrape_source. rewrite Hu. destruct u as [|c u]; [congruence|].
    rewrite Hs. destruct (session_get w _) as [resp|e]; [|reflexivity].
    destruct (status resp =? 200)%Z; simpl; [|reflexivity].
    destruct (document resp); reflexivity.
  - apply add_scheme_has_scheme.
  - pose proof (add_scheme_has_scheme u) as Hh. unfold has_scheme in Hh.
    unfold add_scheme at 1. now rewrite Hh.
  - intros Hh. unfold add_scheme. unfold has_scheme in Hh. now rewrite Hh.
  - intros Hh. unfold add_scheme. unfold has_scheme in Hh. now rewrite Hh.
Qed.

(** *** Extraction *)

Lemma list_of_set_length (xs : list string) :
  length (list_of_set xs) <= length xs.
Proof.
  apply submseteq_length, NoDup_submseteq; [apply list_of_set_NoDup|].
  intros x. apply list_of_set_elem.
Qed.

Lemma flat_map_length_le {A B : Type} (f : A -> list B) (l : list A) :
  (forall x, length (f x) <= 1) -> length (flat_map f l) <= length l.
Proof.
  intros Hf. induction l as [|x l IH]; simpl; [lia|].
  rewrite length_app. specialize (Hf x). lia.
Qed.

Lemma heading_texts_length (elements : list Soup.node) :
  length (heading_texts elements) <= length elements.
Proof.
  unfold heading_texts. apply flat_map_length_le.
  intros e. destruct (Soup.find _ _ e); simpl; lia.
Qed.

Lemma extend_if_elem {A : Type} (acc : list A) (o : option (list A)) (x : A) :
  x ∈ extend_if acc o <-> x ∈ acc \/ exists l, o = Some l /\ x ∈ l.
Proof.
  destruct o as [[|y l]|]; simpl.
  - split; [auto|]. intros [?|(l & [= <-] & Hx)]; [assumption|].
    now apply elem_of_nil in Hx.
  - rewrite elem_of_app. split.
    + intros [?|?]; [auto|]. right. eauto.
    + intros [?|(l' & [= <-] & Hx)]; auto.
  - split; [auto|]. intros [?|(l & Hl & _)]; [assumption|discriminate].
Qed.

Lemma extend_if_length {A : Type} (acc : list A) (o : option (list A)) :
  length (extend_if acc o) = length acc + length (default [] o).
Proof.
  destruct o as [[|y l]|]; simpl; rewrite ?length_app; simpl; lia.
Qed.

(** X7: the products of a record have no repetition, contain every seed
    product of the descriptor, and are at most as many as the navigation
    items, plus ten headings of product elements, plus the seed
    products. *)
Theorem products_are_a_set_with_the_seeds
    (soup : Soup.node) (source : descriptor) :
  NoDup (_extract_products soup source)
  /\ (forall seeds p,
         products source = Some seeds -> p ∈ seeds ->
         p ∈ _extract_products soup source)
  /\ length (_extract_products soup source)
     <= length (nav_items soup) + 10
        + length (default [] (products source)).
Proof.
  unfold _extract_products. fold (nav_items soup) (product_elements soup).
  repeat apply conj.
  - apply list_of_set_NoDup.
  - intros seeds p Hs Hp. apply list_of_set_elem, extend_if_elem.
    right. eauto.
  - etransitivity; [apply list_of_set_length|].
    rewrite extend_if_length, length_app.
    pose proof (heading_texts_length (firstn 10 (product_elements soup)))
      as Hh.
    rewrite length_take in Hh.
    assert (length
              (flat_map
                 (fun item =>
                    if Py.any_in product_keywords (Py.lower (text_of item))
                    then [text_of item] else [])
                 (nav_items soup))
            <= length (nav_items soup)) as Hn.
    { apply flat_map_length_le.
      intros item. destruct (Py.any_in product_keywords _); simpl; lia. }
    lia.
Qed.

Lemma find_some_first {A : Type} (p : A -> bool) (l : list A) (t : A) :
  List.find p l = Some t ->
  exists before after,
    l = before ++ t :: after /\ p t = true
    /\ Forall (fun x => p x = false) before.
Proof.
  induction l as [|x l IH]; simpl; [discriminate|].
  destruct (p x) eqn:Hx.
  - intros [= ->]. exists [], l. repeat split; [assumption|constructor].
  - intros Hf. destruct (IH Hf) as (before & after & -> & Ht & Hb).
    exists (x :: before), after. repeat split; [assumption|].
    now constructor.
Qed.

(** [element.find(['h2', 'h3', 'h4'])] is the first heading of one of the
    three levels below the element. *)
Lemma find_heading (element heading : Soup.node) :
  Soup.find ["h2"; "h3"; "h4"] Soup.any_tag element = Some heading
  <-> first_in_document (Soup.is_tag ["h2"; "h3"; "h4"]) element heading.
Proof.
  assert (forall n,
             Soup.is_tag ["h2"; "h3"; "h4"] n && Soup.any_tag n
             = Soup.is_tag ["h2"; "h3"; "h4"] n) as Hp
    by (intros n; apply andb_true_r).
  split.
  - intros Hf. apply find_some_first in Hf as (before & after & Hd & Ht & Hb).
    exists before, after. rewrite Hp in Ht. repeat split; try assumption.
    eapply Forall_impl; [exact Hb|]. intros x Hx. simpl in Hx.
    now rewrite Hp in Hx.
  - intros (before & after & Hd & Ht & Hb). apply soup_find_first.
    exists before, after. repeat split; [assumption|now rewrite Hp|].
    eapply Forall_impl; [exact Hb|]. intros x Hx. simpl. now rewrite Hp.
Qed.

Lemma heading_texts_elem (elements : list Soup.node) (s : string) :
  s ∈ heading_texts elements
  <-> exists element heading,
        element ∈ elements
        /\ first_in_document (Soup.is_tag ["h2"; "h3"; "h4"]) element heading
        /\ s = Py.strip (Soup.get_text heading).
Proof.
  unfold heading_texts. rewrite list_elem_of_In, in_flat_map. split.
  - intros (element & He & Hs).
    destruct (Soup.find ["h2"; "h3"; "h4"] Soup.any_tag element)
      as [heading|] eqn:Hf; [|destruct Hs].
    destruct Hs as [<-|[]]. exists element, heading.
    split; [now apply list_elem_of_In|]. split; [now apply find_heading|].
    reflexivity.
  - intros (element & heading & He & Hf & ->).
    exists element. split; [now apply list_elem_of_In|].
    apply find_heading in Hf. rewrite Hf. now left.
Qed.

(** X8: the services of a record have no repetition and are exactly the
    seed services of the descriptor and, for every [div] or [section] of
    the page whose class attribute contains [service], [consulting] or
    [support], the text of the first [h2], [h3] or [h4] below it, without
    the white space at its ends.  The service keyword list and the words
    of the page text play no part. *)
Theorem services_are_seeds_and_headings
    (soup : Soup.node) (source : descriptor) :
  NoDup (_extract_services soup source)
  /\ (forall s,
         s ∈ _extract_services soup source
         <-> (exists seeds, services source = Some seeds /\ s ∈ seeds)
             \/ (exists element heading cls word,
                   element ∈ Soup.descendants soup
                   /\ Soup.is_tag ["div"; "section"] element = true
                   /\ Soup.get "class" element = Some cls
                   /\ word ∈ ["service"; "consulting"; "support"]
                   /\ Py.contains word cls = true
                   /\ first_in_document (Soup.is_tag ["h2"; "h3"; "h4"])
                        element heading
                   /\ s = Py.strip (Soup.get_text heading))).
Proof.
  unfold _extract_services. split; [apply list_of_set_NoDup|].
  intros s. rewrite list_of_set_elem, elem_of_app, extend_if_elem.
  rewrite heading_texts_elem. split.
  - intros [[Hn|?]|(element & heading & He & Hf & ->)].
    + now apply elem_of_nil in Hn.
    + now left.
    + right. unfold Soup.find_all in He.
      apply list_elem_of_In, filter_In in He as [Hd [Htag Hcls]%andb_prop].
      unfold Soup.attr_search in Hcls.
      destruct (Soup.get "class" element) as [cls|] eqn:Hc;
        [|discriminate].
      apply existsb_exists in Hcls as (word & Hw & Hcontains).
      exists element, heading, cls, word.
      repeat split; try assumption; now apply list_elem_of_In.
  - intros [?|(element & heading & cls & word
               & Hd & Htag & Hc & Hw & Hcontains & Hf & ->)].
    + left. now right.
    + right. exists element, heading. repeat split; [|assumption].
      unfold Soup.find_all. apply list_elem_of_In, filter_In.
      split; [now apply list_elem_of_In|].
      unfold Soup.attr_search. rewrite Htag, Hc.
      apply existsb_exists. exists word.
      split; [now apply list_elem_of_In|exact Hcontains].
Qed.



(** X10: the extracted title never has white space at either end. *)
Theorem title_is_stripped (soup : Soup.node) :
  stripped (_extract_title soup).
Proof.
  unfold _extract_title, text_of.
  destruct (Soup.find _ _ soup); [apply strip_stripped|].
  destruct (Soup.find _ _ soup); [apply strip_stripped|reflexivity].
Qed.

(** X11: when the page has no usable meta or Open Graph description, the
    description is empty, or has between 51 and 200 characters, or has
    exactly 203 characters and ends in the ellipsis. *)
Theorem paragraph_description_length (soup : Soup.node) :
  no_meta_content "name" "description" soup ->
  no_meta_content "property" "og:description" soup ->
  _extract_description soup = ""
  \/ (50 < Py.len (_extract_description soup) <= 200)%Z
  \/ (Py.len (_extract_description soup) = 203%Z
      /\ exists text,
           _extract_description soup = Py.slice_to text 200 +:+ "...").
Proof.
  intros Hn Hog. unfold _extract_description.
  rewrite (content_of_no_meta _ _ _ Hn), (content_of_no_meta _ _ _ Hog).
  destruct (Soup.find ["p"] Soup.any_tag soup) as [p|]; [|now left].
  set (text := text_of p).
  destruct (Z.ltb_spec 50 (Py.len text)) as [H50|H50]; [|now left].
  destruct (Z.ltb_spec 200 (Py.len text)) as [H200|H200].
  - right. right. split; [|now exists text].
    rewrite len_append, len_slice_to by lia. reflexivity.
  - right. left. lia.
Qed.

(** *** Contact information *)

Lemma contact_info_unfold (soup : Soup.node) :
  exists from_text : gmap string string,
    _extract_contact_info soup
    = fold_left link_update (contact_links soup) from_text
    /\ from_text !! "phone" = first_found phone_pattern soup
    /\ from_text !! "email" = first_found email_pattern soup
    /\ from_text !! "address" = first_found address_pattern soup
    /\ forall k, is_Some (from_text !! k) -> k ∈ ["phone"; "email"; "address"].
Proof.
  unfold _extract_contact_info. fold (contact_links soup).
  eexists. split; [reflexivity|].
  unfold first_found, contact_patterns. cbn [fold_left].
  destruct (Re.findall phone_pattern _) as [|m1 ?],
           (Re.findall email_pattern _) as [|m2 ?],
           (Re.findall address_pattern _) as [|m3 ?];
    (repeat split; try reflexivity);
    intros k [v Hk];
    repeat (apply lookup_insert_Some in Hk as [[<- _]|[_ Hk]];
            [set_solver|]);
    rewrite lookup_empty in Hk; discriminate.
Qed.

Lemma link_update_keys (m : gmap string string) (link : Soup.node)
    (k : string) :
  is_Some (link_update m link !! k) ->
  is_Some (m !! k) \/ k = "email" \/ k = "phone".
Proof.
  unfold link_update. destruct (is_mailto link); [|destruct (is_tel link)].
  - rewrite lookup_insert_is_Some. intros [<-|[_ ?]]; auto.
  - rewrite lookup_insert_is_Some. intros [<-|[_ ?]]; auto.
  - auto.
Qed.

Lemma fold_links_keys (links : list Soup.node) :
  forall (m : gmap string string) (k : string),
    is_Some (fold_left link_update links m !! k) ->
    is_Some (m !! k) \/ k = "email" \/ k = "phone".
Proof.
  induction links as [|link links IH]; intros m k; simpl; [auto|].
  intros Hk. destruct (IH _ _ Hk) as [Hm|?]; [|auto].
  exact (link_update_keys m link k Hm).
Qed.

Lemma fold_links_address (links : list Soup.node) :
  forall m : gmap string string,
    fold_left link_update links m !! "address" = m !! "address".
Proof.
  induction links as [|link links IH]; intros m; simpl; [reflexivity|].
  rewrite IH. unfold link_update.
  destruct (is_mailto link); [|destruct (is_tel link)];
    try reflexivity; now rewrite lookup_insert_ne.
Qed.

Lemma fold_links_email_untouched (links : list Soup.node) :
  Forall (fun l => is_mailto l = false) links ->
  forall m : gmap string string,
    fold_left link_update links m !! "email" = m !! "email".
Proof.
  induction 1 as [|link links Hl _ IH]; intros m; simpl; [reflexivity|].
  rewrite IH. unfold link_update. rewrite Hl.
  destruct (is_tel link); [|reflexivity]. now rewrite lookup_insert_ne.
Qed.

Lemma fold_links_phone_untouched (links : list Soup.node) :
  Forall (fun l => is_mailto l = true \/ is_tel l = false) links ->
  forall m : gmap string string,
    fold_left link_update links m !! "phone" = m !! "phone".
Proof.
  induction 1 as [|link links Hl _ IH]; intros m; simpl; [reflexivity|].
  rewrite IH. unfold link_update.
  destruct (is_mailto link).
  - now rewrite lookup_insert_ne.
  - destruct Hl as [Hl|Hl]; [discriminate|]. now rewrite Hl.
Qed.

(** X12: the contact information has no key besides phone, email and
    address; the address is always the first match of the address pattern
    in the page text; without a mail link the email, and without a phone
    link the phone, is the first match of its pattern in the page text. *)
Theorem contact_info_keys_and_address (soup : Soup.node) :
  (forall k, is_Some (_extract_contact_info soup !! k) ->
             k ∈ ["phone"; "email"; "address"])
  /\ _extract_contact_info soup !! "address"
     = first_found address_pattern soup
  /\ (Forall (fun l => is_mailto l = false) (contact_links soup) ->
      _extract_contact_info soup !! "email" = first_found email_pattern soup)
  /\ (Forall (fun l => is_mailto l = true \/ is_tel l = false)
        (contact_links soup) ->
      _extract_contact_info soup !! "phone" = first_found phone_pattern soup).
Proof.
  destruct (contact_info_unfold soup) as (m & -> & Hp & He & Ha & Hk).
  repeat apply conj.
  - intros k Hs. destruct (fold_links_keys _ _ _ Hs) as [?|[-> | ->]];
      [auto|set_solver|set_solver].
  - now rewrite fold_links_address.
  - intros Hl. now rewrite fold_links_email_untouched.
  - intros Hl. now rewrite fold_links_phone_untouched.
Qed.

(** X13: among the contact links of the page, the last mail link gives
    the email and the last phone link gives the phone, whatever the page
    text and the earlier links say; the value is the link's target with
    every [mailto:] (or [tel:]) removed. *)
Theorem last_contact_link_wins (soup : Soup.node)
    (before after : list Soup.node) (link : Soup.node) :
  contact_links soup = before ++ link :: after ->
  (is_mailto link = true ->
   Forall (fun l => is_mailto l = false) after ->
   _extract_contact_info soup !! "email"
   = Some (Py.replace "mailto:" "" (href_of link)))
  /\ (is_mailto link = false -> is_tel link = true ->
      Forall (fun l => is_mailto l = true \/ is_tel l = false) after ->
      _extract_contact_info soup !! "phone"
      = Some (Py.replace "tel:" "" (href_of link))).
Proof.
  intros Hlinks.
  destruct (contact_info_unfold soup) as (m & -> & _).
  rewrite Hlinks, fold_left_app. simpl. split.
  - intros Hm Hafter. rewrite fold_links_email_untouched by assumption.
    unfold link_update. rewrite Hm. apply lookup_insert_eq.
  - intros Hm Ht Hafter. rewrite fold_links_phone_untouched by assumption.
    unfold link_update. rewrite Hm, Ht. apply lookup_insert_eq.
Qed.

(** X14: an address in the contact information has at least 5
    characters; a phone taken from the page text (no phone link) has
    between 10 and 17 characters; an email taken from the page text (no mail
    link) has at least 6 characters. *)
Theorem text_contact_lengths (soup : Soup.node) (value : string) :
  (_extract_contact_info soup !! "address" = Some value ->
   5 <= String.length value)
  /\ (Forall (fun l => is_mailto l = true \/ is_tel l = false)
        (contact_links soup) ->
      _extract_contact_info soup !! "phone" = Some value ->
      10 <= String.length value <= 17)
  /\ (Forall (fun l => is_mailto l = false) (contact_links soup) ->
      _extract_contact_info soup !! "email" = Some value ->
      6 <= String.length value).
Proof.
  destruct (contact_info_unfold soup) as (m & -> & Hp & He & Ha & _).
  repeat apply conj.
  - rewrite fold_links_address, Ha. intros Hv.
    destruct (first_found_bounds _ _ _ Hv) as [Hmin _]. exact Hmin.
  - intros Hl. rewrite fold_links_phone_untouched, Hp by assumption.
    intros Hv. destruct (first_found_bounds _ _ _ Hv) as [Hmin Hmax].
    split; [exact Hmin|exact (Hmax 17 eq_refl)].
  - intros Hl. rewrite fold_links_email_untouched, He by assumption.
    intros Hv. destruct (first_found_bounds _ _ _ Hv) as [Hmin _]. exact Hmin.
Qed.

End MoreProperties.

(** ** The schedule, continued *)

Section Progress.

Import Schedule.

Lemma reachable_trans (s0 s1 s2 : state) :
  reachable s0 s1 -> reachable s1 s2 -> reachable s0 s2.
Proof.
  intros H01 H12. induction H12 as [|s s' _ IH Hstep]; [assumption|].
  eapply reach_step; eassumption.
Qed.

Lemma reachable_one (s s' : state) : step s s' -> reachable s s'.
Proof. intros Hstep. eapply reach_step; [apply reach_init|exact Hstep]. Qed.

Lemma reachable_length (a b : state) :
  reachable a b -> length (tasks b) = length (tasks a).
Proof.
  intros Hab. induction Hab as [|x y _ IH Hstep]; [reflexivity|].
  rewrite <- IH. destruct Hstep; simpl; rewrite ?length_insert; reflexivity.
Qed.

Lemma invariant_reachable_from (max_concurrent : nat) (s s' : state) :
  invariant max_concurrent s -> reachable s s' -> invariant max_concurrent s'.
Proof.
  intros Hinv Hreach. induction Hreach as [|sa sb _ IH Hstep]; [assumption|].
  eapply invariant_step; eassumption.
Qed.

Lemma remaining_insert (ts : list phase) (i : nat) (p q : phase) :
  ts !! i = Some p ->
  remaining (<[i := q]> ts) + todo p = remaining ts + todo q.
Proof.
  revert i. induction ts as [|x ts IH]; intros i Hi; [discriminate|].
  destruct i as [|i]; simpl in *.
  - injection Hi as ->. lia.
  - specialize (IH i Hi). lia.
Qed.

Lemma remaining_zero (ts : list phase) :
  remaining ts = 0 -> Forall (fun p => is_finished p = true) ts.
Proof.
  induction ts as [|p ts IH]; simpl; [constructor|].
  intros Hz. constructor; [destruct p; simpl in *; (reflexivity || lia)|].
  apply IH. lia.
Qed.

Lemma find_phase (f : phase -> bool) (ts : list phase) :
  existsb f ts = true -> exists i p, ts !! i = Some p /\ f p = true.
Proof.
  intros (p & Hin & Hp)%existsb_exists.
  apply list_elem_of_In, list_elem_of_lookup in Hin as [i Hi]. eauto.
Qed.

Lemma no_holder_count (ts : list phase) :
  existsb is_pacing ts = false -> existsb in_flight ts = false ->
  count holds_slot ts = 0.
Proof.
  unfold count. induction ts as [|p ts IH]; simpl; [reflexivity|].
  intros [Hp Hps]%orb_false_iff [Hf Hfs]%orb_false_iff.
  destruct p; simpl in *; try discriminate; now apply IH.
Qed.

Lemma some_waiting (ts : list phase) :
  existsb is_pacing ts = false -> existsb in_flight ts = false ->
  0 < remaining ts -> existsb is_waiting ts = true.
Proof.
  induction ts as [|p ts IH]; simpl; [lia|].
  intros [Hp Hps]%orb_false_iff [Hf Hfs]%orb_false_iff Hr.
  destruct p; simpl in *; try discriminate; [reflexivity|].
  apply IH; assumption.
Qed.

Lemma progress (max_concurrent : nat) (s : state) :
  1 <= max_concurrent -> invariant max_concurrent s ->
  0 < remaining (tasks s) ->
  exists s', reachable s s' /\ remaining (tasks s') < remaining (tasks s).
Proof.
  intros Hn [Hslots _] Hr. destruct s as [v ts t]. simpl in *.
  destruct (existsb is_pacing ts) eqn:Hp.
  - destruct (find_phase _ _ Hp) as (i & [| |fetched|] & Hi & Hpi);
      try discriminate.
    pose proof (remaining_insert ts i _ (Finished fetched
                  (if Qlt_le_dec t (fetched + pacing_delay)
                   then fetched + pacing_delay else t)) Hi) as Hrem.
    destruct (Qlt_le_dec t (fetched + pacing_delay)) as [Hlt|Hle].
    + exists (State (S v)
                (<[i := Finished fetched (fetched + pacing_delay)]> ts)
                (fetched + pacing_delay)).
      split; [|simpl in *; lia].
      eapply reach_step.
      * apply reachable_one.
        apply (step_tick v ts t (fetched + pacing_delay)).
        now apply Qlt_le_weak.
      * apply step_release; [assumption|apply Qle_refl].
    + exists (State (S v) (<[i := Finished fetched t]> ts) t).
      split; [|simpl in *; lia].
      apply reachable_one. now apply step_release.
  - destruct (existsb in_flight ts) eqn:Hf.
    + destruct (find_phase _ _ Hf) as (i & [| | |] & Hi & Hpi);
        try discriminate.
      exists (State v (<[i := Pacing t]> ts) t).
      split; [apply reachable_one; now apply step_fetched|].
      pose proof (remaining_insert ts i _ (Pacing t) Hi). simpl in *. lia.
    + pose proof (no_holder_count ts Hp Hf) as Hc.
      pose proof (some_waiting ts Hp Hf Hr) as Hw.
      destruct (find_phase _ _ Hw) as (i & [| | |] & Hi & Hpi);
        try discriminate.
      destruct v as [|v]; [lia|].
      exists (State v (<[i := Fetching]> ts) t).
      split; [apply reachable_one; now apply step_acquire|].
      pose proof (remaining_insert ts i _ Fetching Hi). simpl in *. lia.
Qed.

Lemma completion (max_concurrent : nat) :
  1 <= max_concurrent ->
  forall (k : nat) (s : state),
    remaining (tasks s) <= k -> invariant max_concurrent s ->
    exists s', reachable s s'
               /\ Forall (fun p => is_finished p = true) (tasks s').
Proof.
  intros Hn. induction k as [|k IH]; intros s Hk Hinv.
  - exists s. split; [apply reach_init|]. apply remaining_zero. lia.
  - destruct (Nat.eq_dec (remaining (tasks s)) 0) as [Hz|Hnz].
    + exists s. split; [apply reach_init|]. now apply remaining_zero.
    + destruct (progress max_concurrent s Hn Hinv) as (s1 & Hreach & Hlt);
        [lia|].
      pose proof (invariant_reachable_from _ _ _ Hinv Hreach) as Hinv1.
      destruct (IH s1) as (s2 & Hreach2 & Hfin); [lia|assumption|].
      exists s2. split; [|assumption]. eapply reachable_trans; eassumption.
Qed.

(** Without a free slot and with every task waiting, nothing but the
    clock moves. *)
Lemma starved_stays (s s' : state) :
  value s = 0 -> Forall (fun p => is_waiting p = true) (tasks s) ->
  reachable s s' ->
  value s' = 0 /\ tasks s' = tasks s.
Proof.
  intros Hv Hw Hreach. induction Hreach as [|s1 s2 _ [Hv1 Hts] Hstep].
  - split; [exact Hv|reflexivity].
  - rewrite Forall_lookup in Hw.
    destruct Hstep
      as [v ts t t' Ht|v ts t i Hi|v ts t i Hi|v ts t i f Hi Ht];
      simpl in *.
    + auto.
    + discriminate.
    + rewrite Hts in Hi. specialize (Hw i _ Hi). discriminate.
    + rewrite Hts in Hi. specialize (Hw i _ Hi). discriminate.
Qed.

(** The batch of [n] tasks can be completed, so that [asyncio.gather] has
    all its results and [scrape_all_sources] goes on to its report, exactly
    when the semaphore has a slot or there is no task. *)
Lemma batch_completes_iff (max_concurrent n : nat) (t0 : Q) :
  (exists s,
      reachable (init max_concurrent n t0) s
      /\ Forall (fun p => is_finished p = true) (tasks s))
  <-> 1 <= max_concurrent \/ n = 0.
Proof.
  split.
  - intros (s & Hreach & Hfin).
    destruct max_concurrent as [|m]; [|left; lia]. right.
    destruct (starved_stays (init 0 n t0) s) as [_ Hts];
      [reflexivity|simpl; now apply Forall_replicate|exact Hreach|].
    rewrite Hts in Hfin. destruct n as [|n]; [reflexivity|].
    simpl in Hfin. inversion Hfin as [|? ? Hw _]. discriminate Hw.
  - intros [Hslot| ->].
    + destruct (completion max_concurrent Hslot
                  (remaining (tasks (init max_concurrent n t0)))
                  (init max_concurrent n t0))
        as (s & Hreach & Hfin); [lia|apply invariant_init|].
      eauto.
    + exists (init max_concurrent 0 t0).
      split; [apply reach_init|constructor].
Qed.

(** X16: with at least one slot, the batch can be completed from every
    state the tasks can reach: some continuation of the schedule ends with
    every one of the [n] tasks finished, so the semaphore and the pacing
    delay never block the batch for good. *)
Theorem batch_can_always_complete
    (max_concurrent n : nat) (t0 : Q) (s : state) :
  1 <= max_concurrent ->
  reachable (init max_concurrent n t0) s ->
  exists s',
    reachable s s'
    /\ length (tasks s') = n
    /\ Forall (fun p => is_finished p = true) (tasks s').
Proof.
  intros Hn Hreach.
  destruct (completion max_concurrent Hn (remaining (tasks s)) s)
    as (s' & Hreach' & Hfin); [lia|eapply invariant_reachable; eassumption|].
  exists s'. split; [assumption|]. split; [|assumption].
  rewrite (reachable_length _ _ Hreach'), (reachable_length _ _ Hreach).
  simpl. apply length_replicate.
Qed.

(** X17: with [max_concurrent] 0 no task ever gets a slot: in every
    reachable state all tasks are still waiting, so no fetch is made and the
    batch never completes. *)
Theorem zero_slots_starve (n : nat) (t0 : Q) (s : state) :
  reachable (init 0 n t0) s ->
  value s = 0 /\ tasks s = replicate n Waiting.
Proof.
  intros Hreach. induction Hreach as [|s s' _ [Hv Hts] Hstep].
  - split; reflexivity.
  - destruct Hstep
      as [v ts t t' Ht|v ts t i Hi|v ts t i Hi|v ts t i f Hi Ht];
      simpl in *.
    + auto.
    + discriminate.
    + subst ts. apply lookup_replicate in Hi as [? _]. discriminate.
    + subst ts. apply lookup_replicate in Hi as [? _]. discriminate.
Qed.

End Progress.

(** ** The properties at sample inputs *)

#[local] Existing Instance insertion_order.

Lemma load_failure_is_zero_sources_witness :
  load_fails missing_file no_json "sources/sources.json"
  /\ _load_sources missing_file no_json "sources/sources.json" = empty_catalog
  /\ scrape_all_sources (fun _ => refusing_world) "2024-05-01T12:00:05"
       (_load_sources missing_file no_json "sources/sources.json") 5
     = Return (RunReport 0 0 0 [] [] "2024-05-01T12:00:05").
Proof.
  assert (load_fails missing_file no_json "sources/sources.json") as Hfail.
  { left. eexists. reflexivity. }
  split; [exact Hfail|].
  exact (load_failure_is_zero_sources missing_file no_json
           "sources/sources.json" (fun _ => refusing_world)
           "2024-05-01T12:00:05" 5 Hfail).
Defined.

Lemma title_and_description_rules_witness :
  first_in_document (tag "title") acme_page acme_title
  /\ _extract_title acme_page = Py.strip (Soup.get_text acme_title).
Proof.
  assert (first_in_document (tag "title") acme_page acme_title) as Hfirst.
  { exists [], (tl (Soup.descendants acme_page)).
    split; [reflexivity|split; [reflexivity|constructor]]. }
  split; [exact Hfirst|].
  exact (proj1 title_and_description_rules acme_page acme_title Hfirst).
Defined.

Lemma certification_snippets_are_windows_witness :
  (forall (xs : list Wide.text) (x : Wide.text), x ∈ remove_dups xs <-> x ∈ xs)
  /\ Wide.widen "usda organic growers since 1999"
     ∈ Wide._extract_certifications remove_dups
         (Wide.widen "USDA Organic growers since 1999")
  /\ length (Wide.widen "usda organic growers since 1999") <= 100
  /\ Wide.lower (Wide.widen "usda organic growers since 1999")
     = Wide.widen "usda organic growers since 1999".
Proof.
  assert (forall (xs : list Wide.text) (x : Wide.text),
             x ∈ remove_dups xs <-> x ∈ xs) as Hset
    by (intros xs x; apply elem_of_remove_dups).
  assert (Wide.widen "usda organic growers since 1999"
            ∈ Wide._extract_certifications remove_dups
                (Wide.widen "USDA Organic growers since 1999")) as Hin.
  { apply list_elem_of_In. vm_compute. left. reflexivity. }
  split; [exact Hset|]. split; [exact Hin|].
  destruct (certification_snippets_are_windows remove_dups
              (Wide.widen "USDA Organic growers since 1999")
              (Wide.widen "usda organic growers since 1999") Hset)
    as [_ Hshape].
  destruct (Hshape Hin) as (Hlen & Hlower & _).
  split; [exact Hlen|exact Hlower].
Defined.

(** The snippet of a page that starts with U+1D400 keeps that upper-case
    character. *)
Lemma upper_case_survives :
  Wide._extract_certifications remove_dups bold_page
  = [Wide.BoldCapitalA :: Wide.widen " certified"]
  /\ Wide.isupper Wide.BoldCapitalA = true
  /\ Wide.lower_char Wide.BoldCapitalA = Wide.BoldCapitalA.
Proof. repeat split; reflexivity. Qed.

(** Two iteration orders of the set of two seed products give the
    products of the record in two orders. *)
Lemma set_order_changes_products :
  @scraped_data insertion_order ok_world "https://supplier.example"
     acme_page two_products !! "products"
  = Some (PyList ["seeds"; "clones"])
  /\ @scraped_data reversed_order ok_world "https://supplier.example"
       acme_page two_products !! "products"
     = Some (PyList ["clones"; "seeds"]).
Proof. split; reflexivity. Qed.

Lemma run_report_counts_witness :
  (1 <= 2 \/ all_sources small_catalog = [])
  /\ exists report,
       scrape_all_sources (fun _ => ok_world) "2024-05-01T12:00:05"
         small_catalog 2
       = Return report
       /\ total_sources report = 2
       /\ successful_scrapes report + failed_scrapes report = 2.
Proof.
  assert (1 <= 2 \/ all_sources small_catalog = []) as Hrun
    by (left; exact (le_S 1 1 (le_n 1))).
  split; [exact Hrun|].
  destruct (run_report_counts (fun _ => ok_world) "2024-05-01T12:00:05"
              small_catalog 2 Hrun)
    as (report & Hret & Htotal & Hsum & _).
  exists report. split; [exact Hret|]. split; [exact Htotal|].
  rewrite Hsum. exact Htotal.
Defined.

Lemma one_record_per_descriptor_witness :
  (1 <= 2 \/ all_sources small_catalog = [])
  /\ exists report,
       scrape_all_sources (fun _ => ok_world) "2024-05-01T12:00:05"
         small_catalog 2
       = Return report
       /\ length (results report ++ failures report) = 2
       /\ scrape_source ok_world (seed None) ∈ failures report
       /\ scrape_source ok_world (seed (Some "supplier.example"))
          ∈ results report.
Proof.
  assert (1 <= 2 \/ all_sources small_catalog = []) as Hrun
    by (left; exact (le_S 1 1 (le_n 1))).
  split; [exact Hrun|].
  destruct (one_record_per_descriptor (fun _ => ok_world)
              "2024-05-01T12:00:05" small_catalog 2 Hrun)
    as (report & Hret & _ & Hlen & _ & Hrecords).
  exists report. split; [exact Hret|]. split; [exact Hlen|]. split.
  - destruct (Hrecords 1 (seed None) eq_refl)
      as (_ & _ & Hnone & _).
    exact (proj2 (Hnone (or_introl eq_refl))).
  - destruct (Hrecords 0 (seed (Some "supplier.example")) eq_refl)
      as (_ & _ & _ & _ & Hok & _).
    refine (proj2 (proj2 (proj2 (Hok "supplier.example" acme_page eq_refl _ _)))).
    + discriminate.
    + exists tt, (Response 200 (Return acme_page)).
      repeat split; reflexivity.
Defined.

Lemma scrape_source_wraps_exceptions_witness :
  fetch_raises refusing_world "supplier.example" "Connection refused"
  /\ scrape_source refusing_world (seed (Some "supplier.example")) !! "status"
     = Some (PyStr "error")
  /\ scrape_source refusing_world (seed (Some "supplier.example")) !! "error"
     = Some (PyStr "Connection refused").
Proof.
  assert (fetch_raises refusing_world "supplier.example" "Connection refused")
    as Hraise.
  { right. exists tt. split; [reflexivity|left; reflexivity]. }
  split; [exact Hraise|].
  refine (proj2 (scrape_source_wraps_exceptions refusing_world
                   (seed (Some "supplier.example")) "supplier.example"
                   "Connection refused" eq_refl _ Hraise)).
  discriminate.
Defined.

(** A fetch that times out is wrapped into a record whose error field is
    empty, and a descriptor whose URL is the empty string gets a record
    without status. *)
Lemma timeout_gives_empty_error :
  fetch_raises timeout_world "supplier.example" ""
  /\ scrape_source timeout_world (seed (Some "supplier.example")) !! "status"
     = Some (PyStr "error")
  /\ scrape_source timeout_world (seed (Some "supplier.example")) !! "error"
     = Some (PyStr "")
  /\ scrape_source timeout_world (seed (Some "")) !! "status" = None.
Proof.
  split; [right; exists tt; split; [reflexivity|left; reflexivity]|].
  repeat split; reflexivity.
Qed.

Lemma error_taxonomy_witness :
  scrape_source refusing_world (seed None) !! "status" = None
  /\ scrape_source not_found_world (seed (Some "supplier.example")) !! "error"
     = Some (PyStr "HTTP 404")
  /\ scrape_source refusing_world (seed (Some "supplier.example")) !! "status"
     = Some (PyStr "error").
Proof.
  split; [|split].
  - refine (proj2 (proj2 (proj1 (error_taxonomy refusing_world (seed None)) _))).
    left. reflexivity.
  - refine (proj1 (proj1 (proj2 (error_taxonomy not_found_world
                                   (seed (Some "supplier.example"))))
                     "supplier.example" tt
                     (Response 404 (Return acme_page))
                     eq_refl _ eq_refl eq_refl _)); discriminate.
  - refine (proj2 (proj2 (proj2 (error_taxonomy refusing_world
                                   (seed (Some "supplier.example"))))
                     "supplier.example" "Connection refused" eq_refl _ _)).
    + discriminate.
    + right. exists tt. split; [reflexivity|left; reflexivity].
Defined.

(** The record of a fetch that raised has the status ["error"]. *)
Lemma exception_record_has_status :
  fetch_raises refusing_world "supplier.example" "Connection refused"
  /\ scrape_source refusing_world (seed (Some "supplier.example")) !! "error"
     = Some (PyStr "Connection refused")
  /\ scrape_source refusing_world (seed (Some "supplier.example")) !! "status"
     = Some (PyStr "error").
Proof.
  split; [right; exists tt; split; [reflexivity|left; reflexivity]|].
  split; reflexivity.
Qed.

(** The record of a descriptor without URL has neither url, timestamp nor
    status; the record of a 404 response has no timestamp and an integer
    status. *)
Lemma records_without_data_model_fields :
  scrape_source refusing_world (seed None) = no_url_record
  /\ scrape_source refusing_world (seed None) !! "url" = None
  /\ scrape_source refusing_world (seed None) !! "timestamp" = None
  /\ scrape_source refusing_world (seed None) !! "status" = None
  /\ scrape_source not_found_world (seed (Some "supplier.example")) !! "timestamp"
     = None
  /\ scrape_source not_found_world (seed (Some "supplier.example")) !! "status"
     = Some (PyInt 404).
Proof. repeat split; reflexivity. Qed.

Lemma at_most_max_concurrent_in_flight_witness :
  Schedule.reachable (Schedule.init 1 2 0) first_task_done
  /\ Schedule.count Schedule.in_flight (Schedule.tasks first_task_done) <= 1
  /\ (0 + 1 <= 1)%Q.
Proof.
  assert (Schedule.reachable (Schedule.init 1 2 0) first_task_done) as Hreach.
  { eapply Schedule.reach_step.
    - eapply Schedule.reach_step.
      + eapply Schedule.reach_step.
        * eapply Schedule.reach_step; [apply Schedule.reach_init|].
          exact (Schedule.step_acquire 0
                   [Schedule.Waiting; Schedule.Waiting] 0 0 eq_refl).
        * exact (Schedule.step_fetched 0
                   [Schedule.Fetching; Schedule.Waiting] 0 0 eq_refl).
      + refine (Schedule.step_tick 0
                  [Schedule.Pacing 0; Schedule.Waiting] 0 1 _).
        discriminate.
    - refine (Schedule.step_release 0
                [Schedule.Pacing 0; Schedule.Waiting] 1 0 0 eq_refl _).
      discriminate. }
  split; [exact Hreach|].
  destruct (at_most_max_concurrent_in_flight 1 2 0 first_task_done Hreach)
    as (Hflight & _ & Hpaced).
  split; [exact Hflight|].
  exact (Hpaced 0 0%Q 1%Q eq_refl).
Defined.

Lemma captured_exceptions_become_failures_witness :
  length [Raise "boom"; Return no_url_record]
  = length [seed (Some "supplier.example"); seed None]
  /\ exists s f,
       process_results [seed (Some "supplier.example"); seed None] 0
         [Raise "boom"; Return no_url_record] [] []
       = Return (s, f)
       /\ length s + length f = 2
       /\ exception_entry (seed (Some "supplier.example")) "boom" ∈ f.
Proof.
  split; [reflexivity|].
  destruct (captured_exceptions_become_failures
              [seed (Some "supplier.example"); seed None]
              [Raise "boom"; Return no_url_record] eq_refl)
    as (s & f & Hp & Hc & He & _).
  exists s, f. split; [exact Hp|]. split; [exact Hc|].
  exact (He 0 "boom" (seed (Some "supplier.example")) eq_refl eq_refl).
Defined.

Lemma recorded_url_has_scheme_witness :
  get_session ok_world = Return tt
  /\ scrape_source ok_world (seed (Some "supplier.example")) !! "url"
     = Some (PyStr "https://supplier.example").
Proof.
  split; [reflexivity|].
  refine (proj1 (recorded_url_has_scheme ok_world
                   (seed (Some "supplier.example")) "supplier.example" tt
                   eq_refl _ eq_refl)).
  discriminate.
Defined.

Lemma paragraph_description_length_witness :
  no_meta_content "name" "description" grower_page
  /\ no_meta_content "property" "og:description" grower_page
  /\ (_extract_description grower_page = ""
      \/ (50 < Py.len (_extract_description grower_page) <= 200)%Z
      \/ (Py.len (_extract_description grower_page) = 203%Z
          /\ exists text,
               _extract_description grower_page
               = Py.slice_to text 200 +:+ "...")).
Proof.
  assert (forall key value, no_meta_content key value grower_page) as Hno.
  { intros key value. left. unfold none_in_document. simpl.
    repeat constructor. }
  split; [apply Hno|]. split; [apply Hno|].
  exact (paragraph_description_length grower_page (Hno _ _) (Hno _ _)).
Defined.

Lemma last_contact_link_wins_witness :
  contact_links contact_page = [sales_link] ++ info_link :: []
  /\ is_mailto info_link = true
  /\ _extract_contact_info contact_page !! "email"
     = Some "info@acme.example".
Proof.
  assert (contact_links contact_page = [sales_link] ++ info_link :: [])
    as Hlinks by reflexivity.
  split; [exact Hlinks|]. split; [reflexivity|].
  exact (proj1 (last_contact_link_wins contact_page [sales_link] []
                  info_link Hlinks)
           eq_refl (List.Forall_nil _)).
Defined.

Lemma text_contact_lengths_witness :
  Forall (fun l => is_mailto l = true \/ is_tel l = false)
    (contact_links contact_page)
  /\ _extract_contact_info contact_page !! "phone" = Some " (555) 123-4567"
  /\ 10 <= String.length " (555) 123-4567" <= 17.
Proof.
  assert (Forall (fun l => is_mailto l = true \/ is_tel l = false)
            (contact_links contact_page)) as Hlinks.
  { change (contact_links contact_page) with [sales_link; info_link].
    repeat constructor. }
  split; [exact Hlinks|]. split; [reflexivity|].
  exact (proj1 (proj2 (text_contact_lengths contact_page " (555) 123-4567"))
           Hlinks eq_refl).
Defined.

Lemma batch_can_always_complete_witness :
  1 <= 1
  /\ Schedule.reachable (Schedule.init 1 2 0) (Schedule.init 1 2 0)
  /\ exists s',
       Schedule.reachable (Schedule.init 1 2 0) s'
       /\ length (Schedule.tasks s') = 2
       /\ Forall (fun p => is_finished p = true) (Schedule.tasks s').
Proof.
  split; [constructor|]. split; [apply Schedule.reach_init|].
  exact (batch_can_always_complete 1 2 0 (Schedule.init 1 2 0)
           (le_n 1) (Schedule.reach_init _)).
Defined.

Lemma zero_slots_starve_witness :
  Schedule.reachable (Schedule.init 0 2 0) still_waiting
  /\ Schedule.value still_waiting = 0
  /\ Schedule.tasks still_waiting = replicate 2 Schedule.Waiting.
Proof.
  assert (Schedule.reachable (Schedule.init 0 2 0) still_waiting) as Hreach.
  { eapply Schedule.reach_step; [apply Schedule.reach_init|].
    refine (Schedule.step_tick 0 [Schedule.Waiting; Schedule.Waiting] 0 5 _).
    discriminate. }
  split; [exact Hreach|].
  exact (zero_slots_starve 2 0 still_waiting Hreach).
Defined.

Lemma cli_count_matches_report_witness :
  1 <= 2
  /\ exists report,
       scrape_all_sources (fun _ => ok_world) "2024-05-01T12:00:05"
         small_catalog 2
       = Return report
       /\ total_sources report = Cli.total_sources small_catalog.
Proof.
  split; [exact (le_S 1 1 (le_n 1))|].
  exact (cli_count_matches_report (fun _ => ok_world) "2024-05-01T12:00:05"
           small_catalog 2 (le_S 1 1 (le_n 1))).
Defined.

Lemma live_run_status_witness :
  1 <= 2
  /\ Cli.scrape_sources (fun _ => ok_world) "2024-05-01T12:00:05"
       empty_catalog 2 = 1%Z
  /\ Cli.scrape_sources (fun _ => ok_world) "2024-05-01T12:00:05"
       small_catalog 2 = 0%Z.
Proof.
  split; [exact (le_S 1 1 (le_n 1))|]. split.
  - exact (live_run_status (fun _ => ok_world) "2024-05-01T12:00:05"
             empty_catalog 2 (le_S 1 1 (le_n 1))).
  - exact (live_run_status (fun _ => ok_world) "2024-05-01T12:00:05"
             small_catalog 2 (le_S 1 1 (le_n 1))).
Defined.

Lemma report_keeps_task_order_witness :
  1 <= 2
  /\ exists report,
       scrape_all_sources (fun _ => ok_world) "2024-05-01T12:00:05"
         small_catalog 2
       = Return report
       /\ length (results report) = 1
       /\ failures report = [no_url_record].
Proof.
  split; [exact (le_S 1 1 (le_n 1))|].
  destruct (report_keeps_task_order (fun _ => ok_world)
              "2024-05-01T12:00:05" small_catalog 2 (le_S 1 1 (le_n 1)))
    as (report & Hr & Hres & Hfail & _).
  exists report. split; [exact Hr|].
  rewrite Hres, Hfail. split; reflexivity.
Defined.
